(** * Stack deployment orchestration (deployStack / destroyStack)

    A shallow embedding of the deployment module of the CDK toolkit
    (the file that defines [deployStack], [getStackOutputs],
    [makeBodyParameter] and [destroyStack]) and the properties its
    specification states about it.

    The module is a straight-line asynchronous program over external
    collaborators: the CloudFormation client, the helpers of
    util/cloudformation, the asset preparer, the toolkit bucket and the
    activity monitor.  Every [await] is a call that either yields a value or
    rejects; a rejection is rethrown at the [await].  The embedding threads
    an explicit state of the outside world through these calls and records
    each of them, with its answer, in a chronological trace.  The calls to
    [debug] only log and are left out; [.catch(e => { throw e; })] rethrows
    what it catches and is the plain call. *)

From Stdlib Require Import ZArith Ascii String List Bool Lia.
From stdpp Require Import base option list strings gmap pretty.

Local Open Scope string_scope.

(** ** Strings of the source that hold characters with no plain literal *)

Definition dquote : string := String "034"%char EmptyString.
Definition newline : string := String "010"%char EmptyString.
Definition tab : string := String "009"%char EmptyString.

(** JavaScript's [a || b] on an optional string: [undefined] and the empty
    string are falsy. *)
Definition or_else (a : option string) (b : string) : string :=
  match a with
  | Some EmptyString => b
  | Some s => s
  | None => b
  end.

(** Truthiness of an optional boolean ([quiet?: boolean]). *)
Definition truthy (b : option bool) : bool :=
  match b with
  | Some true => true
  | _ => false
  end.

(** ** Data model *)

(** [new Error(message)]. *)
Record Error := mkError { message : string }.

(** The completion of an awaited call: a value, or a thrown error. *)
Inductive Completion (A : Type) : Type :=
| Return (a : A)
| Throw (e : Error).
Arguments Return {A} a.
Arguments Throw {A} e.

Definition completed {A} (c : Completion A) : bool :=
  match c with Return _ => true | Throw _ => false end.

(** [Mode] of aws-auth/credentials. *)
Inductive Mode := ForReading | ForWriting.

Module Environment.
Record t := mk { name : string; account : string; region : string }.
End Environment.

Module SynthesizedStack.
Record t (Template Metadata : Type) := mk {
  name : string;
  environment : option Environment.t;
  template : Template;
  metadata : Metadata
}.
Arguments mk {Template Metadata}.
Arguments name {Template Metadata}.
Arguments environment {Template Metadata}.
Arguments template {Template Metadata}.
Arguments metadata {Template Metadata}.
End SynthesizedStack.

(** The part of [ToolkitInfo] the module reads (its [uploadIfChanged] method
    is a call on the outside world, below). *)
Record ToolkitInfo := { bucketUrl : string }.

Record UploadProps := {
  s3KeyPrefix : string;
  s3KeySuffix : string;
  contentType : string
}.

Record UploadResult := { key : string }.

Module TemplateBodyParameter.
Record t := mk { TemplateBody : option string; TemplateURL : option string }.
End TemplateBodyParameter.

(** The shapes of the CloudFormation API the module touches. *)
Module CloudFormation.

(** The values of the [ChangeSetType] request field. *)
Inductive ChangeSetKind := CREATE | UPDATE.

Inductive Capability := CAPABILITY_IAM | CAPABILITY_NAMED_IAM.

Record StackParameter := {
  ParameterKey : string;
  ParameterValue : string
}.

Record Output := { OutputKey : string; OutputValue : string }.

Record Stack := {
  StackStatus : string;
  StackStatusReason : option string;
  Outputs : option (list Output)
}.

Record Change := { LogicalResourceId : string; Action : string }.

Record DescribeChangeSetOutput := { Changes : option (list Change) }.

Record CreateChangeSetInput := {
  StackName : string;
  ChangeSetName : string;
  ChangeSetType : ChangeSetKind;
  Description : string;
  TemplateBody : option string;
  TemplateURL : option string;
  Parameters : list StackParameter;
  RoleARN : option string;
  Capabilities : list Capability
}.

Record CreateChangeSetOutput := { Id : string; StackId : string }.

End CloudFormation.

Module DeployStackResult.
Record t := mk {
  noOp : bool;
  outputs : gmap string string;
  stackArn : string
}.
End DeployStackResult.

Module DeployStackOptions.
Record t (Template Metadata : Type) := mk {
  stack : SynthesizedStack.t Template Metadata;
  toolkitInfo : option ToolkitInfo;
  roleArn : option string;
  deployName : option string;
  quiet : option bool
}.
Arguments mk {Template Metadata}.
Arguments stack {Template Metadata}.
Arguments toolkitInfo {Template Metadata}.
Arguments roleArn {Template Metadata}.
Arguments deployName {Template Metadata}.
Arguments quiet {Template Metadata}.
End DeployStackOptions.

Module DestroyStackOptions.
Record t (Template Metadata : Type) := mk {
  stack : SynthesizedStack.t Template Metadata;
  roleArn : option string;
  deployName : option string;
  quiet : option bool
}.
Arguments mk {Template Metadata}.
Arguments stack {Template Metadata}.
Arguments roleArn {Template Metadata}.
Arguments deployName {Template Metadata}.
Arguments quiet {Template Metadata}.
End DestroyStackOptions.

Definition LARGE_TEMPLATE_SIZE_KB : Z := 50.

(** [Math.round(n / 1024)] for a string length [n]: the quotient is exact in
    double precision, and [Math.round] rounds halves up. *)
Definition round_div_1024 (n : Z) : Z := (n + 512) / 1024.

(** JavaScript strings are sequences of UTF-16 code units and [s.length]
    counts them.  The model holds a text as its UTF-8 bytes, so
    [String.length] is its size in bytes.  A character is one code unit, or
    two (a surrogate pair) when it lies outside the basic plane, which is
    when its UTF-8 form has four bytes; continuation bytes add nothing. *)
Definition code_units (c : ascii) : nat :=
  let b := nat_of_ascii c in
  if Nat.ltb b 128 then 1
  else if Nat.ltb b 192 then 0
  else if Nat.ltb b 240 then 1
  else 2.

Fixpoint js_length (s : string) : nat :=
  match s with
  | EmptyString => 0
  | String c s' => code_units c + js_length s'
  end.

(** [templateJson.length > LARGE_TEMPLATE_SIZE_KB * 1024]. *)
Definition too_large (templateJson : string) : bool :=
  (LARGE_TEMPLATE_SIZE_KB * 1024 <? Z.of_nat (js_length templateJson))%Z.

(** ** Calls on the outside world and their trace *)

Section Events.
Context {Metadata : Type}.

Inductive Event : Type :=
| EvPrepareAssets (r : Completion (list CloudFormation.StackParameter))
| EvUuid (id : string)
| EvCloudFormationClient (env : Environment.t) (mode : Mode)
    (r : Completion unit)
| EvUploadIfChanged (tk : ToolkitInfo) (data : string) (props : UploadProps)
    (r : Completion UploadResult)
| EvLogError (msg : string) (arg : string)
| EvStackFailedCreating (stackName : string) (r : Completion bool)
| EvDeleteStack (stackName : string) (roleARN : option string)
    (r : Completion unit)
| EvWaitForStack (stackName : string) (failOnDeletedStack : option bool)
    (r : Completion (option CloudFormation.Stack))
| EvStackExists (stackName : string) (r : Completion bool)
| EvCreateChangeSet (req : CloudFormation.CreateChangeSetInput)
    (r : Completion CloudFormation.CreateChangeSetOutput)
| EvWaitForChangeSet (stackName changeSetName : string)
    (r : Completion (option CloudFormation.DescribeChangeSetOutput))
| EvDeleteChangeSet (stackName changeSetName : string) (r : Completion unit)
| EvDescribeStack (stackName : string)
    (r : Completion (option CloudFormation.Stack))
| EvExecuteChangeSet (stackName changeSetName : string) (r : Completion unit)
| EvMonitorStart (stackName : string) (metadata : option Metadata)
    (resourcesTotal : option nat)
| EvMonitorStop (stackName : string).

End Events.
Arguments Event Metadata : clear implicits.

Section Orchestrator.
Context {Template Metadata St : Type}.

(** The collaborators the module imports.  The pure ones are functions
    ([YAML.safeDump] throws on a value it cannot dump); the awaited ones take
    the state of the outside world and give a completion together with the
    next state.  [sdk_cloudFormation] stands for
    [options.sdk.cloudFormation]; the client it yields is the receiver of the
    [cfn_] calls and the first argument of the util/cloudformation helpers,
    and is left implicit. *)
Record World := {
  YAML_safeDump : Template -> Completion string;
  colors_blue : string -> string;
  StackStatus_fromStackDescription : CloudFormation.Stack -> string;
  prepareAssets :
    SynthesizedStack.t Template Metadata -> option ToolkitInfo ->
    St -> Completion (list CloudFormation.StackParameter) * St;
  uuid_v4 : St -> string * St;
  sdk_cloudFormation : Environment.t -> Mode -> St -> Completion unit * St;
  uploadIfChanged :
    ToolkitInfo -> string -> UploadProps -> St -> Completion UploadResult * St;
  stackFailedCreating : string -> St -> Completion bool * St;
  stackExists : string -> St -> Completion bool * St;
  waitForStack :
    string -> option bool -> St -> Completion (option CloudFormation.Stack) * St;
  waitForChangeSet :
    string -> string ->
    St -> Completion (option CloudFormation.DescribeChangeSetOutput) * St;
  describeStack : string -> St -> Completion (option CloudFormation.Stack) * St;
  cfn_deleteStack : string -> option string -> St -> Completion unit * St;
  cfn_createChangeSet :
    CloudFormation.CreateChangeSetInput ->
    St -> Completion CloudFormation.CreateChangeSetOutput * St;
  cfn_deleteChangeSet : string -> string -> St -> Completion unit * St;
  cfn_executeChangeSet : string -> string -> St -> Completion unit * St
}.

Definition Trace : Type := list (Event Metadata).

(** ** The monad of the module: world state, trace and exceptions *)

Definition M (A : Type) : Type := St * Trace -> Completion A * (St * Trace).

Definition ret {A} (a : A) : M A := fun st => (Return a, st).

Definition throw {A} (e : Error) : M A := fun st => (Throw e, st).

Definition bind {A B} (m : M A) (k : A -> M B) : M B :=
  fun st =>
    match m st with
    | (Return a, st') => k a st'
    | (Throw e, st') => (Throw e, st')
    end.

(** An awaited call: ask the world, record the call and its completion. *)
Definition call {R} (h : St -> Completion R * St)
    (ev : Completion R -> Event Metadata) : M R :=
  fun st =>
    match h (fst st) with
    | (r, s') => (r, (s', (snd st ++ [ev r])%list))
    end.

(** An effect that is only observed. *)
Definition emit (e : Event Metadata) : M unit :=
  fun st => (Return tt, (fst st, (snd st ++ [e])%list)).

Notation "x <- c1 ;; c2" := (bind c1 (fun x => c2))
  (at level 100, c1 at next level, right associativity).

Variable w : World.

Definition fresh_uuid : M string :=
  fun st =>
    match uuid_v4 w (fst st) with
    | (id, s') => (Return id, (s', (snd st ++ [EvUuid id])%list))
    end.

(** Modelled from the spec: StackActivityMonitor
    (util/cloudformation/stack-activity-monitor is not among the sources).
    Section 4.3: the monitor only reports stack activity, it can be started
    and stopped, does not block or delay the orchestrator and does not alter
    functional behaviour.  So [start()] and [stop()] always complete, leave
    the state of the outside world as it is, and are recorded in the trace. *)
Record StackActivityMonitor := { monitored : string }.

Definition StackActivityMonitor_start (stackName : string)
    (metadata : option Metadata) (resourcesTotal : option nat)
    : M StackActivityMonitor :=
  _ <- emit (EvMonitorStart stackName metadata resourcesTotal) ;;
  ret {| monitored := stackName |}.

Definition StackActivityMonitor_stop (monitor : StackActivityMonitor)
    : M unit :=
  emit (EvMonitorStop (monitored monitor)).

(** ** The functions of the module *)

(** [result[key] = value] on an object created by [{}], for a string
    [value]: the property is stored, except under the key [__proto__], where
    the assignment reaches the setter of the prototype, which ignores a
    string and stores nothing. *)
Definition assign (result : gmap string string) (key value : string)
    : gmap string string :=
  if String.eqb key "__proto__" then result else <[key := value]> result.

(** The [forEach] of [getStackOutputs]: later outputs overwrite earlier ones
    that have the same key. *)
Definition collect_outputs (description : option CloudFormation.Stack)
    : gmap string string :=
  match description with
  | Some d =>
      match CloudFormation.Outputs d with
      | Some outs =>
          fold_left
            (fun result output =>
               assign result (CloudFormation.OutputKey output)
                 (CloudFormation.OutputValue output))
            outs ∅
      | None => ∅
      end
  | None => ∅
  end.

Definition getStackOutputs (stackName : string) : M (gmap string string) :=
  description <- call (describeStack w stackName) (EvDescribeStack stackName) ;;
  ret (collect_outputs description).

Definition too_large_message : string :=
  "Template too large to deploy (" +:+ dquote +:+ "cdk bootstrap" +:+ dquote
  +:+ " is required)".

Definition too_large_log (stackName templateJson : string) : string :=
  "The template for stack " +:+ dquote +:+ stackName +:+ dquote +:+ " is "
  +:+ pretty (round_div_1024 (Z.of_nat (js_length templateJson)))
  +:+ "KiB. "
  +:+ "Templates larger than " +:+ pretty LARGE_TEMPLATE_SIZE_KB
  +:+ "KiB must be uploaded to S3." +:+ newline
  +:+ "Run the following command in order to setup an S3 bucket in this "
  +:+ "environment, and then re-deploy:" +:+ newline +:+ newline.

Definition makeBodyParameter (stack : SynthesizedStack.t Template Metadata)
    (toolkitInfo : option ToolkitInfo) : M TemplateBodyParameter.t :=
  match YAML_safeDump w (SynthesizedStack.template stack) with
  | Throw e => throw e
  | Return templateJson =>
    match toolkitInfo with
    | Some tk =>
        let props :=
          {| s3KeyPrefix := "cdk/" +:+ SynthesizedStack.name stack +:+ "/";
             s3KeySuffix := ".yml";
             contentType := "application/x-yaml" |} in
        r <- call (uploadIfChanged w tk templateJson props)
               (EvUploadIfChanged tk templateJson props) ;;
        let templateURL := bucketUrl tk +:+ "/" +:+ key r in
        ret (TemplateBodyParameter.mk None (Some templateURL))
    | None =>
        if too_large templateJson then
          match SynthesizedStack.environment stack with
          | Some env =>
              _ <- emit
                     (EvLogError
                        (too_large_log (SynthesizedStack.name stack)
                           templateJson)
                        (colors_blue w
                           (tab +:+ "$ cdk bootstrap " +:+ Environment.name env
                            +:+ newline))) ;;
              throw (mkError too_large_message)
          | None =>
              throw
                (mkError "TypeError: Cannot read property 'name' of undefined")
          end
        else ret (TemplateBodyParameter.mk (Some templateJson) None)
    end
  end.

Definition no_changes
    (d : option CloudFormation.DescribeChangeSetOutput) : bool :=
  match d with
  | None => true
  | Some d =>
      match CloudFormation.Changes d with
      | None => true
      | Some l => Nat.eqb (length l) 0
      end
  end.

Definition changes_length
    (d : option CloudFormation.DescribeChangeSetOutput) : nat :=
  match d with
  | Some {| CloudFormation.Changes := Some l |} => length l
  | _ => 0
  end.

(** [s && s.StackStatus !== 'DELETE_COMPLETE']. *)
Definition not_deleted (s : option CloudFormation.Stack) : bool :=
  match s with
  | Some d => negb (String.eqb (CloudFormation.StackStatus d) "DELETE_COMPLETE")
  | None => false
  end.

Definition status_of (s : option CloudFormation.Stack) : string :=
  match s with
  | Some d => CloudFormation.StackStatus d
  | None => ""
  end.

Definition no_environment_message (stackName : string) : string :=
  "The stack " +:+ stackName +:+ " does not have an environment".

Definition failed_deleting_message (deployName status : string) : string :=
  "Failed deleting stack " +:+ deployName
  +:+ " that had previously failed creation (current state: " +:+ status
  +:+ ")".

Definition deployStack (options : DeployStackOptions.t Template Metadata)
    : M DeployStackResult.t :=
  let stack := DeployStackOptions.stack options in
  match SynthesizedStack.environment stack with
  | None => throw (mkError (no_environment_message (SynthesizedStack.name stack)))
  | Some environment =>
    params <- call (prepareAssets w stack (DeployStackOptions.toolkitInfo options))
                EvPrepareAssets ;;
    let deployName :=
      or_else (DeployStackOptions.deployName options)
        (SynthesizedStack.name stack) in
    executionId <- fresh_uuid ;;
    cfn <- call (sdk_cloudFormation w environment ForWriting)
             (EvCloudFormationClient environment ForWriting) ;;
    bodyParameter <-
      makeBodyParameter stack (DeployStackOptions.toolkitInfo options) ;;
    failed <- call (stackFailedCreating w deployName)
                (EvStackFailedCreating deployName) ;;
    _ <- (if failed : bool then
            _ <- call (cfn_deleteStack w deployName None)
                   (EvDeleteStack deployName None) ;;
            deletedStack <- call (waitForStack w deployName (Some false))
                              (EvWaitForStack deployName (Some false)) ;;
            if not_deleted deletedStack then
              throw (mkError
                       (failed_deleting_message deployName
                          (status_of deletedStack)))
            else ret tt
          else ret tt) ;;
    update <- call (stackExists w deployName) (EvStackExists deployName) ;;
    let changeSetName := "CDK-" +:+ executionId in
    let request :=
      {| CloudFormation.StackName := deployName;
         CloudFormation.ChangeSetName := changeSetName;
         CloudFormation.ChangeSetType :=
           if update : bool then CloudFormation.UPDATE
           else CloudFormation.CREATE;
         CloudFormation.Description :=
           "CDK Changeset for execution " +:+ executionId;
         CloudFormation.TemplateBody :=
           TemplateBodyParameter.TemplateBody bodyParameter;
         CloudFormation.TemplateURL :=
           TemplateBodyParameter.TemplateURL bodyParameter;
         CloudFormation.Parameters := params;
         CloudFormation.RoleARN := DeployStackOptions.roleArn options;
         CloudFormation.Capabilities :=
           [CloudFormation.CAPABILITY_IAM;
            CloudFormation.CAPABILITY_NAMED_IAM] |} in
    changeSet <- call (cfn_createChangeSet w request)
                   (EvCreateChangeSet request) ;;
    changeSetDescription <-
      call (waitForChangeSet w deployName changeSetName)
        (EvWaitForChangeSet deployName changeSetName) ;;
    if no_changes changeSetDescription then
      _ <- call (cfn_deleteChangeSet w deployName changeSetName)
             (EvDeleteChangeSet deployName changeSetName) ;;
      outputs <- getStackOutputs deployName ;;
      ret (DeployStackResult.mk true outputs
             (CloudFormation.StackId changeSet))
    else
      _ <- call (cfn_executeChangeSet w deployName changeSetName)
             (EvExecuteChangeSet deployName changeSetName) ;;
      monitor <-
        (if truthy (DeployStackOptions.quiet options) then ret None
         else
           started <-
             StackActivityMonitor_start deployName
               (Some (SynthesizedStack.metadata stack))
               (Some (changes_length changeSetDescription)) ;;
           ret (Some started)) ;;
      _ <- call (waitForStack w deployName None)
             (EvWaitForStack deployName None) ;;
      _ <- match monitor with
           | Some started => StackActivityMonitor_stop started
           | None => ret tt
           end ;;
      outputs <- getStackOutputs deployName ;;
      ret (DeployStackResult.mk false outputs
             (CloudFormation.StackId changeSet))
  end.

Definition failed_to_destroy_message (deployName status : string) : string :=
  "Failed to destroy " +:+ deployName +:+ ": " +:+ status.

Definition destroyed_status (s : option CloudFormation.Stack) : string :=
  match s with
  | Some d => StackStatus_fromStackDescription w d
  | None => ""
  end.

Definition destroyStack (options : DestroyStackOptions.t Template Metadata)
    : M unit :=
  let stack := DestroyStackOptions.stack options in
  match SynthesizedStack.environment stack with
  | None => throw (mkError (no_environment_message (SynthesizedStack.name stack)))
  | Some environment =>
    let deployName :=
      or_else (DestroyStackOptions.deployName options)
        (SynthesizedStack.name stack) in
    cfn <- call (sdk_cloudFormation w environment ForWriting)
             (EvCloudFormationClient environment ForWriting) ;;
    exists_ <- call (stackExists w deployName) (EvStackExists deployName) ;;
    if negb exists_ then ret tt
    else
      monitor <-
        (if truthy (DestroyStackOptions.quiet options) then ret None
         else
           started <- StackActivityMonitor_start deployName None None ;;
           ret (Some started)) ;;
      _ <- call (cfn_deleteStack w deployName
                   (DestroyStackOptions.roleArn options))
             (EvDeleteStack deployName (DestroyStackOptions.roleArn options)) ;;
      destroyedStack <- call (waitForStack w deployName (Some false))
                          (EvWaitForStack deployName (Some false)) ;;
      _ <- match monitor with
           | Some started => StackActivityMonitor_stop started
           | None => ret tt
           end ;;
      if not_deleted destroyedStack then
        throw (mkError
                 (failed_to_destroy_message deployName
                    (destroyed_status destroyedStack)))
      else ret tt
  end.

(** A run starts with an empty trace. *)
Definition run {A} (m : M A) (s : St) : Completion A * (St * Trace) :=
  m (s, []).

Definition outcome {A} (r : Completion A * (St * Trace)) : Completion A :=
  fst r.

Definition trace_of {A} (r : Completion A * (St * Trace)) : Trace :=
  snd (snd r).

Definition final_state {A} (r : Completion A * (St * Trace)) : St :=
  fst (snd r).

End Orchestrator.

Arguments World : clear implicits.
Arguments Trace : clear implicits.

(** ** Reading a trace *)

Section TraceFacts.
Context {Metadata : Type}.
Implicit Types (e : Event Metadata) (tr : Trace Metadata).

Definition is_createChangeSet e : bool :=
  match e with EvCreateChangeSet _ _ => true | _ => false end.

Definition is_executeChangeSet e : bool :=
  match e with EvExecuteChangeSet _ _ _ => true | _ => false end.

Definition is_deleteStack e : bool :=
  match e with EvDeleteStack _ _ _ => true | _ => false end.

Definition is_monitorStart e : bool :=
  match e with EvMonitorStart _ _ _ => true | _ => false end.

Definition is_monitorStop e : bool :=
  match e with EvMonitorStop _ => true | _ => false end.

Definition is_waitForStack e : bool :=
  match e with EvWaitForStack _ _ _ => true | _ => false end.

(** Requests against the control plane: the [cfn.] calls and the
    util/cloudformation helpers, which all take the client. *)
Definition is_control_plane_call e : bool :=
  match e with
  | EvStackFailedCreating _ _ | EvDeleteStack _ _ _ | EvWaitForStack _ _ _
  | EvStackExists _ _ | EvCreateChangeSet _ _ | EvWaitForChangeSet _ _ _
  | EvDeleteChangeSet _ _ _ | EvDescribeStack _ _
  | EvExecuteChangeSet _ _ _ => true
  | _ => false
  end.

(** The requests that change remote infrastructure. *)
Definition is_mutation e : bool :=
  match e with
  | EvDeleteStack _ _ _ | EvCreateChangeSet _ _ | EvDeleteChangeSet _ _ _
  | EvExecuteChangeSet _ _ _ => true
  | _ => false
  end.

(** Whether the call behind an event completed without throwing. *)
Definition event_completed e : bool :=
  match e with
  | EvPrepareAssets r => completed r
  | EvCloudFormationClient _ _ r => completed r
  | EvUploadIfChanged _ _ _ r => completed r
  | EvStackFailedCreating _ r => completed r
  | EvDeleteStack _ _ r => completed r
  | EvWaitForStack _ _ r => completed r
  | EvStackExists _ r => completed r
  | EvCreateChangeSet _ r => completed r
  | EvWaitForChangeSet _ _ r => completed r
  | EvDeleteChangeSet _ _ r => completed r
  | EvDescribeStack _ r => completed r
  | EvExecuteChangeSet _ _ r => completed r
  | EvUuid _ | EvLogError _ _ | EvMonitorStart _ _ _ | EvMonitorStop _ => true
  end.

(** The stack a control-plane request or a monitor is addressed to. *)
Definition event_stack_name e : option string :=
  match e with
  | EvStackFailedCreating n _ | EvDeleteStack n _ _ | EvWaitForStack n _ _
  | EvStackExists n _ | EvWaitForChangeSet n _ _ | EvDeleteChangeSet n _ _
  | EvDescribeStack n _ | EvExecuteChangeSet n _ _ | EvMonitorStart n _ _
  | EvMonitorStop n => Some n
  | EvCreateChangeSet req _ => Some (CloudFormation.StackName req)
  | _ => None
  end.

(** No remote call of the run threw. *)
Definition all_completed tr : bool := forallb event_completed tr.

Definition never (p : Event Metadata -> bool) tr : bool :=
  negb (existsb p tr).

(** Every event satisfying [q] comes strictly after one satisfying [p]. *)
Fixpoint each_preceded_by (p q : Event Metadata -> bool) tr : bool :=
  match tr with
  | [] => true
  | e :: tr' =>
      if q e then false
      else if p e then true
      else each_preceded_by p q tr'
  end.

(** The events of a trace other than those of the activity monitor. *)
Definition without_monitor tr : Trace Metadata :=
  List.filter (fun e => negb (is_monitorStart e || is_monitorStop e)) tr.

(** A completed wait for the deletion of a stack
    ([waitForStack(cfn, name, false)]). *)
Definition is_awaited_deletion e : bool :=
  match e with
  | EvWaitForStack _ (Some false) (Return _) => true
  | _ => false
  end.

(** The wait for the stack that follows the execution of a change set
    ([waitForStack(cfn, name)]). *)
Definition is_final_wait e : bool :=
  match e with
  | EvWaitForStack _ None _ => true
  | _ => false
  end.

(** The events that follow the first one satisfying [p]. *)
Fixpoint after (p : Event Metadata -> bool) tr : Trace Metadata :=
  match tr with
  | [] => []
  | e :: tr' => if p e then tr' else after p tr'
  end.

(** The ordering asked of a run that is not quiet and executes a change
    set: the monitor is started before the change set is executed, and it is
    stopped after the wait for the stack, however that wait ended. *)
Definition monitor_brackets_execution tr : Prop :=
  each_preceded_by is_monitorStart is_executeChangeSet tr = true /\
  existsb is_monitorStop (after is_final_wait tr) = true.

End TraceFacts.

(** ** The toolkit bucket *)

Section ToolkitBucket.
Variable digest : string -> string.

(** Modelled from the spec: ToolkitInfo.uploadIfChanged (toolkit-info is not
    among the sources).  Section 6: [uploadIfChanged(content, {keyPrefix,
    keySuffix, contentType}) -> {key}], idempotent: re-uploading unchanged
    content must not create duplicate objects.  Section 8: the uploaded
    content key is deterministic for identical content.  The key is made of
    the prefix, a digest of the content and the suffix; an object already
    stored under that key is left as it is. *)
Definition contentKey (data : string) (props : UploadProps) : string :=
  s3KeyPrefix props +:+ digest data +:+ s3KeySuffix props.

Definition bucket_uploadIfChanged (data : string) (props : UploadProps)
    (bucket : gmap string (string * string))
    : UploadResult * gmap string (string * string) :=
  let k := contentKey data props in
  match bucket !! k with
  | Some _ => ({| key := k |}, bucket)
  | None => ({| key := k |}, <[k := (data, contentType props)]> bucket)
  end.

End ToolkitBucket.

(** ** A small simulated control plane

    One stack slot, enough to run the orchestrator on concrete inputs. *)

Module Sim.

Record Cloud := {
  status : option string;        (* status of the stack; None: no stack *)
  stackOutputs : list CloudFormation.Output;
  diff : list CloudFormation.Change; (* what a new change set would change *)
  serial : nat;                  (* source of execution identifiers *)
  deleteSticks : bool;           (* deletions end in DELETE_FAILED *)
  waitFails : bool               (* waiting for the stack throws *)
}.

Definition with_status (c : Cloud) (st : option string) : Cloud :=
  {| status := st; stackOutputs := stackOutputs c; diff := diff c;
     serial := serial c; deleteSticks := deleteSticks c;
     waitFails := waitFails c |}.

Definition describe (c : Cloud) : option CloudFormation.Stack :=
  match status c with
  | Some st =>
      Some {| CloudFormation.StackStatus := st;
              CloudFormation.StackStatusReason := None;
              CloudFormation.Outputs := Some (stackOutputs c) |}
  | None => None
  end.

Definition failedCreating (c : Cloud) : bool :=
  match status c with
  | Some st => String.eqb st "CREATE_FAILED" || String.eqb st "ROLLBACK_COMPLETE"
  | None => false
  end.

Definition world : World string unit Cloud := {|
  YAML_safeDump := fun t => Return t;
  colors_blue := fun s => s;
  StackStatus_fromStackDescription := CloudFormation.StackStatus;
  prepareAssets := fun _ _ c => (Return [], c);
  uuid_v4 := fun c =>
    ("id-" +:+ pretty (serial c),
     {| status := status c; stackOutputs := stackOutputs c; diff := diff c;
        serial := S (serial c); deleteSticks := deleteSticks c;
        waitFails := waitFails c |});
  sdk_cloudFormation := fun _ _ c => (Return tt, c);
  uploadIfChanged := fun _ data props c =>
    (Return {| key := s3KeyPrefix props +:+ pretty (String.length data)
                      +:+ s3KeySuffix props |}, c);
  stackFailedCreating := fun _ c => (Return (failedCreating c), c);
  stackExists := fun _ c => (Return (bool_decide (is_Some (status c))), c);
  waitForStack := fun _ _ c =>
    if waitFails c then (Throw (mkError "Throttling: Rate exceeded"), c)
    else (Return (describe c), c);
  waitForChangeSet := fun _ _ c =>
    (Return (Some {| CloudFormation.Changes := Some (diff c) |}), c);
  describeStack := fun _ c => (Return (describe c), c);
  cfn_deleteStack := fun _ _ c =>
    (Return tt,
     with_status c (if deleteSticks c then Some "DELETE_FAILED" else None));
  cfn_createChangeSet := fun req c =>
    (Return {| CloudFormation.Id := CloudFormation.ChangeSetName req;
               CloudFormation.StackId :=
                 "arn:aws:cloudformation:stack/"
                 +:+ CloudFormation.StackName req |}, c);
  cfn_deleteChangeSet := fun _ _ c => (Return tt, c);
  cfn_executeChangeSet := fun _ _ c =>
    (Return tt,
     with_status c
       (Some match status c with
             | Some _ => "UPDATE_COMPLETE"
             | None => "CREATE_COMPLETE"
             end))
|}.

Definition env : Environment.t :=
  Environment.mk "test-env" "123456789012" "eu-west-1".

Definition demo (template : string) : SynthesizedStack.t string unit :=
  SynthesizedStack.mk "demo" (Some env) template tt.

Definition toolkit : ToolkitInfo :=
  {| bucketUrl := "https://bucket.example" |}.

Definition change : CloudFormation.Change :=
  {| CloudFormation.LogicalResourceId := "Queue";
     CloudFormation.Action := "Add" |}.

Definition output : CloudFormation.Output :=
  {| CloudFormation.OutputKey := "QueueUrl";
     CloudFormation.OutputValue := "https://queue.example" |}.

Definition cloud (st : option string) (d : list CloudFormation.Change)
    : Cloud :=
  {| status := st; stackOutputs := [output]; diff := d; serial := 0;
     deleteSticks := false; waitFails := false |}.

(** A template of [n] characters. *)
Fixpoint blank (n : nat) : string :=
  match n with
  | O => EmptyString
  | S n' => String " "%char (blank n')
  end.

Definition deploy (t : string) (tk : option ToolkitInfo)
    (name : option string) (quiet : option bool)
    : DeployStackOptions.t string unit :=
  DeployStackOptions.mk (demo t) tk None name quiet.

Definition destroy (name : option string) (quiet : option bool)
    : DestroyStackOptions.t string unit :=
  DestroyStackOptions.mk (demo "Resources: {}") None name quiet.

(** The same cloud, where deletions end in DELETE_FAILED. *)
Definition sticky (c : Cloud) : Cloud :=
  {| status := status c; stackOutputs := stackOutputs c; diff := diff c;
     serial := serial c; deleteSticks := true; waitFails := waitFails c |}.

(** The same cloud, where waiting for the stack is throttled. *)
Definition throttled (c : Cloud) : Cloud :=
  {| status := status c; stackOutputs := stackOutputs c; diff := diff c;
     serial := serial c; deleteSticks := deleteSticks c; waitFails := true |}.

(** The request of the first deployment of [demo]. *)
Definition request (kind : CloudFormation.ChangeSetKind)
    (body url : option string) : CloudFormation.CreateChangeSetInput :=
  {| CloudFormation.StackName := "demo";
     CloudFormation.ChangeSetName := "CDK-id-0";
     CloudFormation.ChangeSetType := kind;
     CloudFormation.Description := "CDK Changeset for execution id-0";
     CloudFormation.TemplateBody := body;
     CloudFormation.TemplateURL := url;
     CloudFormation.Parameters := [];
     CloudFormation.RoleARN := None;
     CloudFormation.Capabilities :=
       [CloudFormation.CAPABILITY_IAM; CloudFormation.CAPABILITY_NAMED_IAM] |}.

Definition created : CloudFormation.CreateChangeSetOutput :=
  {| CloudFormation.Id := "CDK-id-0";
     CloudFormation.StackId := "arn:aws:cloudformation:stack/demo" |}.

Definition small : string := "Resources: {}".

(** A template of 51199 spaces and one e with an acute accent (the bytes 195
    and 169): 51200 characters in 51201 bytes. *)
Definition accented : string :=
  blank (Z.to_nat 51199) +:+ String "195"%char (String "169"%char EmptyString).

(** A description that lists the key [QueueUrl] twice and the key
    [__proto__] once. *)
Definition listed : list CloudFormation.Output :=
  [ {| CloudFormation.OutputKey := "QueueUrl";
       CloudFormation.OutputValue := "https://old.example" |};
    {| CloudFormation.OutputKey := "__proto__";
       CloudFormation.OutputValue := "polluted" |};
    output ].

Definition listing : Cloud :=
  {| status := Some "UPDATE_COMPLETE"; stackOutputs := listed; diff := [];
     serial := 0; deleteSticks := false; waitFails := false |}.

End Sim.


(** ** Further readings of a trace *)

Section MoreTraceFacts.
Context {Metadata : Type}.
Implicit Types (e : Event Metadata) (tr : Trace Metadata).

Definition failure {A} (c : Completion A) : option Error :=
  match c with
  | Return _ => None
  | Throw err => Some err
  end.

(** The error the call behind an event threw, if it threw. *)
Definition thrown e : option Error :=
  match e with
  | EvPrepareAssets r => failure r
  | EvCloudFormationClient _ _ r => failure r
  | EvUploadIfChanged _ _ _ r => failure r
  | EvStackFailedCreating _ r => failure r
  | EvDeleteStack _ _ r => failure r
  | EvWaitForStack _ _ r => failure r
  | EvStackExists _ r => failure r
  | EvCreateChangeSet _ r => failure r
  | EvWaitForChangeSet _ _ r => failure r
  | EvDeleteChangeSet _ _ r => failure r
  | EvDescribeStack _ r => failure r
  | EvExecuteChangeSet _ _ r => failure r
  | EvUuid _ | EvLogError _ _ | EvMonitorStart _ _ _ | EvMonitorStop _ => None
  end.

(** Only the last call of a trace may have thrown, and then its error is the
    outcome. *)
Fixpoint fail_stop {A} tr (out : Completion A) : Prop :=
  match tr with
  | [] => True
  | e :: tr' =>
      match tr' with
      | [] =>
          match thrown e with
          | Some err => out = Throw err
          | None => True
          end
      | _ :: _ => thrown e = None /\ fail_stop tr' out
      end
  end.

(** How many events of a trace satisfy [p]. *)
Definition count_of (p : Event Metadata -> bool) tr : nat :=
  length (List.filter p tr).

(** The change set an event is about. *)
Definition event_change_set e : option string :=
  match e with
  | EvCreateChangeSet req _ => Some (CloudFormation.ChangeSetName req)
  | EvWaitForChangeSet _ n _ | EvDeleteChangeSet _ n _
  | EvExecuteChangeSet _ n _ => Some n
  | _ => None
  end.

Definition is_uuid e : bool :=
  match e with EvUuid _ => true | _ => false end.

Definition is_upload e : bool :=
  match e with EvUploadIfChanged _ _ _ _ => true | _ => false end.

Definition is_deleteChangeSet e : bool :=
  match e with EvDeleteChangeSet _ _ _ => true | _ => false end.

Definition is_waitForChangeSet e : bool :=
  match e with EvWaitForChangeSet _ _ _ => true | _ => false end.

(** A [createChangeSet] request that carries the template inline. *)
Definition carries_inline_body e : bool :=
  match e with
  | EvCreateChangeSet req _ =>
      match CloudFormation.TemplateBody req with
      | Some _ => true
      | None => false
      end
  | _ => false
  end.

Definition is_stackExists e : bool :=
  match e with EvStackExists _ _ => true | _ => false end.

Definition is_describeStack e : bool :=
  match e with EvDescribeStack _ _ => true | _ => false end.

(** The role a [deleteStack] request carries. *)
Definition event_delete_role e : option (option string) :=
  match e with
  | EvDeleteStack _ role _ => Some role
  | _ => None
  end.

(** The outputs listed in a stack description, if any. *)
Definition described_outputs (description : option CloudFormation.Stack)
    : list CloudFormation.Output :=
  match description with
  | Some d =>
      match CloudFormation.Outputs d with
      | Some outs => outs
      | None => []
      end
  | None => []
  end.

End MoreTraceFacts.

(** ** Proof support *)

(** Case analysis on the next answer of the outside world. *)
Ltac next_call :=
  match goal with
  | |- context [match ?c with pair _ _ => _ end] =>
      lazymatch c with
      | context [match _ with _ => _ end] => fail
      | context [if _ then _ else _] => fail
      | _ =>
          let r := fresh "r" in
          let s := fresh "s" in
          destruct c as [r s] eqn:?;
          lazymatch type of r with
          | Completion _ => destruct r
          | _ => idtac
          end
      end
  end.

(** Case analysis on the next test of the program. *)
Ltac next_branch :=
  match goal with
  | |- context [match ?x with Some _ => _ | None => _ end] =>
      is_var x; destruct x
  | |- context [match YAML_safeDump ?w ?t with
                | Return _ => _
                | Throw _ => _
                end] =>
      destruct (YAML_safeDump w t) eqn:?
  | |- context [if ?b then _ else _] => is_var b; destruct b
  | |- context [if negb ?b then _ else _] => is_var b; destruct b
  | |- context [if ?b then _ else _] =>
      lazymatch b with
      | too_large _ => destruct b eqn:?
      | not_deleted _ => destruct b eqn:?
      | no_changes _ => destruct b eqn:?
      | truthy _ => destruct b eqn:?
      end
  end.

Ltac step := first [next_call | next_branch]; simpl.

Ltac unfold_run :=
  unfold run, trace_of, outcome, final_state, deployStack, destroyStack,
    makeBodyParameter, getStackOutputs, StackActivityMonitor_start,
    StackActivityMonitor_stop, bind, call, emit, fresh_uuid, ret, throw;
  simpl.

(** All exit paths of a run, each with its trace spelled out. *)
Ltac exit_paths := unfold_run; repeat step.

(** Which event of a spelled-out trace a membership hypothesis is about. *)
Ltac which_event H :=
  simpl in H;
  repeat (destruct H as [H | H]; [try discriminate H |]);
  try contradiction.

(** The outside world is deterministic: a call asked twice in one state has
    one answer. *)
Ltac same_answers :=
  repeat match goal with
    | H : (_, _) = (_, _) |- _ => inversion H; subst; clear H
    | H1 : ?c = _, H2 : ?c = _ |- _ => rewrite H1 in H2
    end.

(** Which event of a computed trace is the one looked for. *)
Ltac found := vm_compute; repeat (first [left; reflexivity | right]).

(** ** What the trace predicates say *)

Section TraceLemmas.
Context {Metadata : Type}.
Implicit Types (e : Event Metadata) (tr : Trace Metadata).

Lemma never_spec (p : Event Metadata -> bool) tr :
  never p tr = true <-> forall e, In e tr -> p e = false.
Proof.
  unfold never. induction tr as [| e0 tr IH]; simpl.
  - split; [intros _ e [] | reflexivity].
  - rewrite negb_orb, andb_true_iff, IH, negb_true_iff. split.
    + intros [He0 Htr] e [<- | Hin]; auto.
    + intros H. split; [apply H; left; reflexivity |].
      intros e Hin. apply H. right. exact Hin.
Qed.

Lemma each_preceded_by_spec (p q : Event Metadata -> bool) tr :
  each_preceded_by p q tr = true ->
  forall pre e post,
    tr = (pre ++ e :: post)%list -> q e = true ->
    exists e', In e' pre /\ p e' = true.
Proof.
  induction tr as [| e0 tr IH]; simpl; intros Hall pre e post Heq Hq.
  - destruct pre; discriminate Heq.
  - destruct pre as [| e1 pre]; simpl in Heq; inversion Heq; subst; clear Heq.
    + rewrite Hq in Hall. discriminate Hall.
    + destruct (q e1); [discriminate Hall |].
      destruct (p e1) eqn:Hp.
      * exists e1. split; [left; reflexivity | exact Hp].
      * destruct (IH Hall pre e post eq_refl Hq) as (e' & Hin & Hp').
        exists e'. split; [right; exact Hin | exact Hp'].
Qed.

End TraceLemmas.

Section OutputLemmas.

Lemma append_assoc (a b c : string) : (a +:+ b) +:+ c = a +:+ b +:+ c.
Proof.
  induction a as [| x a IH]; [reflexivity |].
  change (String x ((a +:+ b) +:+ c) = String x (a +:+ b +:+ c)).
  congruence.
Qed.

(** The [forEach] of [getStackOutputs], started from any accumulator. *)
Lemma fold_outputs_lookup (outs : list CloudFormation.Output)
    (acc : gmap string string) (k : string) :
  fold_left
    (fun result output =>
       assign result (CloudFormation.OutputKey output)
         (CloudFormation.OutputValue output)) outs acc !! k
  = if String.eqb k "__proto__" then acc !! k
    else match
           last (List.filter
                   (fun o => String.eqb (CloudFormation.OutputKey o) k) outs)
         with
         | Some o => Some (CloudFormation.OutputValue o)
         | None => acc !! k
         end.
Proof.
  revert acc. induction outs as [| o outs IH]; intros acc; simpl.
  - destruct (String.eqb k "__proto__"); reflexivity.
  - rewrite IH. unfold assign.
    destruct (String.eqb_spec k "__proto__") as [Hk | Hk].
    + destruct (String.eqb_spec (CloudFormation.OutputKey o) "__proto__")
        as [Ho | Ho]; [reflexivity |].
      apply lookup_insert_ne. congruence.
    + destruct (String.eqb_spec (CloudFormation.OutputKey o) k) as [Heq | Hne].
      * destruct (String.eqb_spec (CloudFormation.OutputKey o) "__proto__")
          as [Ho | Ho]; [congruence |].
        destruct (List.filter _ outs) as [| o' l] eqn:Hf; simpl.
        -- rewrite Heq. apply lookup_insert_eq.
        -- change (last (o :: o' :: l)) with (last (o' :: l)).
           destruct (last (o' :: l)) eqn:Hl; [reflexivity |].
           apply last_None in Hl. discriminate Hl.
      * destruct (last _); [reflexivity |].
        destruct (String.eqb (CloudFormation.OutputKey o) "__proto__");
          [reflexivity |].
        apply lookup_insert_ne. exact Hne.
Qed.

(** What [collect_outputs] holds under each key. *)
Lemma collect_outputs_lookup (current : option CloudFormation.Stack)
    (k : string) :
  collect_outputs current !! k
  = if String.eqb k "__proto__" then None
    else CloudFormation.OutputValue <$>
         last (List.filter
                 (fun o => String.eqb (CloudFormation.OutputKey o) k)
                 match current with
                 | Some d =>
                     match CloudFormation.Outputs d with
                     | Some outs => outs
                     | None => []
                     end
                 | None => []
                 end).
Proof.
  unfold collect_outputs.
  destruct current as [d |];
    [destruct (CloudFormation.Outputs d) as [outs |] |].
  - rewrite fold_outputs_lookup, lookup_empty.
    destruct (String.eqb k "__proto__"); [reflexivity |].
    destruct (last _); reflexivity.
  - rewrite lookup_empty. destruct (String.eqb k "__proto__"); reflexivity.
  - rewrite lookup_empty. destruct (String.eqb k "__proto__"); reflexivity.
Qed.

Lemma no_changes_true
    (description : option CloudFormation.DescribeChangeSetOutput) :
  description = None \/
  (exists d, description = Some d /\
             (CloudFormation.Changes d = None \/
              CloudFormation.Changes d = Some [])) ->
  no_changes description = true.
Proof.
  intros [-> | (d & -> & [H | H])]; simpl; [| rewrite H ..]; reflexivity.
Qed.

End OutputLemmas.

Section Claims.
Context {Template Metadata St : Type}.
Variable w : World Template Metadata St.
Implicit Types (s : St) (tr : Trace Metadata).

(** C1.  When [waitForChangeSet] reports a change set whose list of changes
    is empty or absent, [deployStack] issues [deleteChangeSet] for that change
    set and never issues [executeChangeSet]; and, [deleteChangeSet] and the
    [describeStack] that follows not throwing, it returns [noOp = true] with
    the [StackId] of the [createChangeSet] response and with the outputs of
    the stack as [describeStack], the last call of the run, lists them: under
    each key the value of the last listed output that has it ([__proto__]
    apart, which an object does not store). *)
Theorem deployStack_no_changes_is_noop
    (options : DeployStackOptions.t Template Metadata) s
    (stackName changeSetName : string)
    (description : option CloudFormation.DescribeChangeSetOutput) :
  let r := run (deployStack w options) s in
  In (EvWaitForChangeSet stackName changeSetName (Return description))
    (trace_of r) ->
  description = None \/
  (exists d, description = Some d /\
             (CloudFormation.Changes d = None \/
              CloudFormation.Changes d = Some [])) ->
  (exists c, In (EvDeleteChangeSet stackName changeSetName c) (trace_of r)) /\
  (forall n cs c, ~ In (EvExecuteChangeSet n cs c) (trace_of r)) /\
  ((forall e, ~ In (EvDeleteChangeSet stackName changeSetName (Throw e))
                (trace_of r)) ->
   (forall e, ~ In (EvDescribeStack stackName (Throw e)) (trace_of r)) ->
   exists request created current result,
     In (EvCreateChangeSet request (Return created)) (trace_of r) /\
     CloudFormation.StackName request = stackName /\
     CloudFormation.ChangeSetName request = changeSetName /\
     last (trace_of r) = Some (EvDescribeStack stackName (Return current)) /\
     outcome r = Return result /\
     DeployStackResult.noOp result = true /\
     DeployStackResult.stackArn result = CloudFormation.StackId created /\
     forall k,
       DeployStackResult.outputs result !! k
       = if String.eqb k "__proto__" then None
         else CloudFormation.OutputValue <$>
              last (List.filter
                      (fun o => String.eqb (CloudFormation.OutputKey o) k)
                      match current with
                      | Some d =>
                          match CloudFormation.Outputs d with
                          | Some outs => outs
                          | None => []
                          end
                      | None => []
                      end)).
Proof.
  destruct options as [[name env template metadata] tk role dn quiet].
  intros r Hin Hno. apply no_changes_true in Hno. revert Hin Hno. subst r.
  exit_paths; intros Hin Hno; which_event Hin.
  all: inversion Hin; subst; clear Hin; try congruence.
  all: (split; [eexists; simpl; eauto 20 |]).
  all: (split; [intros n' cs' c' Hexe; which_event Hexe |]).
  all: intros Hdel Hdesc.
  all: try (exfalso; eapply Hdel; simpl; eauto 20; fail).
  all: try (exfalso; eapply Hdesc; simpl; eauto 20; fail).
  all: do 4 eexists; simpl.
  all: repeat (split; [first [reflexivity | eauto 20] |]).
  all: intros k; apply collect_outputs_lookup.
Qed.

(** C2.  The [ChangeSetType] of a [createChangeSet] request is [CREATE]
    exactly when [stackExists] reported that the stack named by the deploy
    name does not exist, and [UPDATE] exactly when it reported that it
    exists.  [stackExists] is asked once in a run, so its report is
    unambiguous. *)
Theorem changeSetType_follows_stackExists
    (options : DeployStackOptions.t Template Metadata) s
    (request : CloudFormation.CreateChangeSetInput)
    (c : Completion CloudFormation.CreateChangeSetOutput) :
  let r := run (deployStack w options) s in
  let deployName :=
    or_else (DeployStackOptions.deployName options)
      (SynthesizedStack.name (DeployStackOptions.stack options)) in
  In (EvCreateChangeSet request c) (trace_of r) ->
  exists update : bool,
    In (EvStackExists deployName (Return update)) (trace_of r) /\
    (forall n c', In (EvStackExists n c') (trace_of r) ->
                  n = deployName /\ c' = Return update) /\
    CloudFormation.StackName request = deployName /\
    (CloudFormation.ChangeSetType request = CloudFormation.CREATE
     <-> update = false) /\
    (CloudFormation.ChangeSetType request = CloudFormation.UPDATE
     <-> update = true).
Proof.
  destruct options as [[name env template metadata] tk role dn quiet].
  intros r deployName; subst r deployName.
  exit_paths; intros Hin; which_event Hin.
  all: inversion Hin; subst; clear Hin.
  all: eexists; (split; [simpl; eauto 20 |]).
  all: split; [intros n c' Hin; which_event Hin; inversion Hin; auto |].
  all: simpl; intuition congruence.
Qed.
(** C4.  When [stackFailedCreating] reports that the stack named by the
    deploy name had failed creation, [deployStack] issues [deleteStack] for
    it, a change set is created only after that request and after the wait
    for the deletion has returned, and if the awaited stack is still there
    with a status other than DELETE_COMPLETE the run throws and creates no
    change set. *)
Theorem failed_creation_is_deleted_first
    (options : DeployStackOptions.t Template Metadata) s (stackName : string) :
  let r := run (deployStack w options) s in
  In (EvStackFailedCreating stackName (Return true)) (trace_of r) ->
  (exists c, In (EvDeleteStack stackName None c) (trace_of r)) /\
  each_preceded_by is_deleteStack is_awaited_deletion (trace_of r) = true /\
  each_preceded_by is_awaited_deletion is_createChangeSet (trace_of r) = true /\
  (forall n flag c, In (EvWaitForStack n flag c) (trace_of r) ->
                    n = stackName) /\
  (forall d,
     In (EvWaitForStack stackName (Some false) (Return (Some d))) (trace_of r) ->
     CloudFormation.StackStatus d <> "DELETE_COMPLETE" ->
     outcome r =
       Throw (mkError
                (failed_deleting_message stackName
                   (CloudFormation.StackStatus d))) /\
     never is_createChangeSet (trace_of r) = true).
Proof.
  destruct options as [[name env template metadata] tk role dn quiet].
  intros r; subst r. exit_paths; intros Hin; which_event Hin.
  all: inversion Hin; subst; clear Hin.
  all: (split; [eexists; simpl; eauto 20 |]); simpl.
  all: do 2 (split; [reflexivity |]).
  all: (split; [intros n flag c Hin; which_event Hin; inversion Hin; auto |]).
  all: intros d Hin Hst; which_event Hin; inversion Hin; subst; clear Hin.
  all: try (split; reflexivity).
  all: exfalso; apply Hst; unfold not_deleted in *;
    apply String.eqb_eq; apply negb_false_iff; assumption.
Qed.

(** C5.  Once [destroyStack] has waited for the deletion: if the awaited
    stack is still there with a status other than DELETE_COMPLETE, it throws
    an error whose message is [Failed to destroy], the deploy name, a colon
    and the rendering of the observed stack by [StackStatus], so that the
    message names the observed status wherever that rendering does; if the
    stack is gone or in DELETE_COMPLETE, it returns. *)
Theorem destroyStack_verifies_deletion
    (options : DestroyStackOptions.t Template Metadata) s (stackName : string)
    (flag : option bool) (awaited : option CloudFormation.Stack) :
  let r := run (destroyStack w options) s in
  In (EvWaitForStack stackName flag (Return awaited)) (trace_of r) ->
  stackName =
    or_else (DestroyStackOptions.deployName options)
      (SynthesizedStack.name (DestroyStackOptions.stack options)) /\
  (exists c, In (EvDeleteStack stackName
                   (DestroyStackOptions.roleArn options) c) (trace_of r)) /\
  (forall d, awaited = Some d ->
             CloudFormation.StackStatus d <> "DELETE_COMPLETE" ->
             exists err,
               outcome r = Throw err /\
               message err
               = "Failed to destroy " +:+ stackName +:+ ": "
                 +:+ StackStatus_fromStackDescription w d /\
               forall pre post,
                 StackStatus_fromStackDescription w d
                 = pre +:+ CloudFormation.StackStatus d +:+ post ->
                 message err
                 = ("Failed to destroy " +:+ stackName +:+ ": " +:+ pre)
                   +:+ CloudFormation.StackStatus d +:+ post) /\
  (awaited = None \/
   (exists d, awaited = Some d /\
              CloudFormation.StackStatus d = "DELETE_COMPLETE") ->
   outcome r = Return tt).
Proof.
  destruct options as [[name env template metadata] role dn quiet].
  intros r; subst r. exit_paths; intros Hin; which_event Hin.
  all: inversion Hin; subst; clear Hin.
  all: (split; [reflexivity |]); (split; [eexists; simpl; eauto 20 |]).
  all: unfold not_deleted in *; split.
  all: try (intros d -> Hst; simpl;
            first
              [ eexists; split; [reflexivity |]; split; [reflexivity |];
                intros pre post ->; unfold failed_to_destroy_message;
                simpl; rewrite !append_assoc; reflexivity
              | exfalso; apply Hst; apply String.eqb_eq;
                apply negb_false_iff; assumption ]).
  all: try (intros [-> | (d & -> & Hd)]; try discriminate; try reflexivity;
            rewrite Hd in *; discriminate).
Qed.

(** C6.  When [stackExists] reports that the stack does not exist,
    [destroyStack] returns, having issued no [deleteStack] (nor any other
    request that changes remote state) and started no activity monitor. *)
Theorem destroyStack_absent_is_noop
    (options : DestroyStackOptions.t Template Metadata) s (stackName : string) :
  let r := run (destroyStack w options) s in
  In (EvStackExists stackName (Return false)) (trace_of r) ->
  outcome r = Return tt /\
  never is_deleteStack (trace_of r) = true /\
  never is_mutation (trace_of r) = true /\
  never is_monitorStart (trace_of r) = true.
Proof.
  destruct options as [[name env template metadata] role dn quiet].
  intros r; subst r. exit_paths; intros Hin; which_event Hin.
  all: inversion Hin; subst; clear Hin; auto.
Qed.
(** C8, as the code has it.  In a run that is not quiet and whose
    [executeChangeSet] call completes, the activity monitor is started right
    after that call, never before it, and the wait for the stack comes next;
    when the wait returns, the monitor is stopped at once, and only then;
    when the wait throws, the error leaves [deployStack] and no stop has been
    issued. *)
Theorem monitor_starts_after_execute
    (options : DeployStackOptions.t Template Metadata) s
    (stackName changeSetName : string) :
  let r := run (deployStack w options) s in
  truthy (DeployStackOptions.quiet options) = false ->
  In (EvExecuteChangeSet stackName changeSetName (Return tt)) (trace_of r) ->
  each_preceded_by is_executeChangeSet is_monitorStart (trace_of r) = true /\
  each_preceded_by is_waitForStack is_monitorStop (trace_of r) = true /\
  exists total c rest,
    after is_executeChangeSet (trace_of r) =
      EvMonitorStart stackName
        (Some (SynthesizedStack.metadata (DeployStackOptions.stack options)))
        (Some total)
      :: EvWaitForStack stackName None c :: rest /\
    match c with
    | Return _ =>
        exists rest', rest = EvMonitorStop stackName :: rest' /\
                      never is_monitorStop rest' = true
    | Throw e =>
        rest = [] /\ outcome r = Throw e /\
        never is_monitorStop (trace_of r) = true
    end.
Proof.
  destruct options as [[name env template metadata] tk role dn quiet].
  intros r; subst r. simpl DeployStackOptions.quiet. intros Hquiet.
  exit_paths; try congruence; intros Hin; which_event Hin.
  all: inversion Hin; subst; clear Hin.
  all: do 2 (split; [reflexivity |]).
  all: do 3 eexists; (split; [reflexivity |]); simpl; eauto.
Qed.

(** C9.  Two runs of [deployStack], and two runs of [destroyStack], that
    differ only in the quiet flag and start from the same state of the
    outside world have the same outcome (the same result, or the same error),
    leave the outside world in the same state and issue the same calls,
    those of the activity monitor apart. *)
Theorem quiet_only_affects_the_monitor
    (stack : SynthesizedStack.t Template Metadata)
    (toolkitInfo : option ToolkitInfo) (roleArn deployName : option string)
    (quiet quiet' : option bool) s :
  (let r := run (deployStack w
                   (DeployStackOptions.mk stack toolkitInfo roleArn deployName
                      quiet)) s in
   let r' := run (deployStack w
                    (DeployStackOptions.mk stack toolkitInfo roleArn deployName
                       quiet')) s in
   outcome r = outcome r' /\
   final_state r = final_state r' /\
   without_monitor (trace_of r) = without_monitor (trace_of r')) /\
  (let r := run (destroyStack w
                   (DestroyStackOptions.mk stack roleArn deployName quiet)) s in
   let r' := run (destroyStack w
                    (DestroyStackOptions.mk stack roleArn deployName quiet')) s in
   outcome r = outcome r' /\
   final_state r = final_state r' /\
   without_monitor (trace_of r) = without_monitor (trace_of r')).
Proof.
  destruct stack as [name env template metadata].
  split; exit_paths; same_answers; try discriminate; repeat split; reflexivity.
Qed.

(** C10.  When [options.deployName] is absent or the empty string, every
    control-plane request and every monitor of a [deployStack] or
    [destroyStack] run is addressed to [options.stack.name]. *)
Theorem deployName_defaults_to_stack_name :
  (forall (options : DeployStackOptions.t Template Metadata) s,
     DeployStackOptions.deployName options = None \/
     DeployStackOptions.deployName options = Some "" ->
     Forall (fun e => forall n, event_stack_name e = Some n ->
                 n = SynthesizedStack.name (DeployStackOptions.stack options))
       (trace_of (run (deployStack w options) s))) /\
  (forall (options : DestroyStackOptions.t Template Metadata) s,
     DestroyStackOptions.deployName options = None \/
     DestroyStackOptions.deployName options = Some "" ->
     Forall (fun e => forall n, event_stack_name e = Some n ->
                 n = SynthesizedStack.name (DestroyStackOptions.stack options))
       (trace_of (run (destroyStack w options) s))).
Proof.
  split.
  - intros [[name env template metadata] tk role dn quiet] s; simpl.
    intros [-> | ->]; exit_paths.
    all: repeat constructor; simpl; congruence.
  - intros [[name env template metadata] role dn quiet] s; simpl.
    intros [-> | ->]; exit_paths.
    all: repeat constructor; simpl; congruence.
Qed.
(** C7.  With a toolkit configured, the body of every [createChangeSet]
    request is the URL of the uploaded template, [bucketUrl/key] for the key
    [uploadIfChanged] answered on the serialized template, and never a
    [TemplateBody], whatever the size of the template.  The key of the
    toolkit bucket depends on the content and the key affixes only, and
    uploading the same content again changes nothing. *)
Theorem toolkit_template_is_passed_by_url :
  (forall (options : DeployStackOptions.t Template Metadata) s
          (tk : ToolkitInfo) request c,
     let r := run (deployStack w options) s in
     let stack := DeployStackOptions.stack options in
     DeployStackOptions.toolkitInfo options = Some tk ->
     In (EvCreateChangeSet request c) (trace_of r) ->
     CloudFormation.TemplateBody request = None /\
     exists templateJson uploaded,
       YAML_safeDump w (SynthesizedStack.template stack)
       = Return templateJson /\
       In (EvUploadIfChanged tk templateJson
             {| s3KeyPrefix := "cdk/" +:+ SynthesizedStack.name stack +:+ "/";
                s3KeySuffix := ".yml";
                contentType := "application/x-yaml" |}
             (Return uploaded)) (trace_of r) /\
       CloudFormation.TemplateURL request =
         Some (bucketUrl tk +:+ "/" +:+ key uploaded)) /\
  (forall (digest : string -> string) data props
          (bucket bucket' : gmap string (string * string)),
     let once := bucket_uploadIfChanged digest data props bucket in
     key (fst once) =
       key (fst (bucket_uploadIfChanged digest data props bucket')) /\
     bucket_uploadIfChanged digest data props (snd once) = once /\
     (forall k, k <> key (fst once) -> snd once !! k = bucket !! k)).
Proof.
  split.
  - intros [[name env template metadata] tk' role dn quiet] s tk request c.
    simpl. intros ->. exit_paths; intros Hin; which_event Hin.
    all: inversion Hin; subst; clear Hin; simpl.
    all: split; [reflexivity |]; do 2 eexists.
    all: split; [reflexivity |]; split; [simpl; eauto 20 | reflexivity].
  - intros digest data props bucket bucket'. unfold bucket_uploadIfChanged.
    simpl. repeat split.
    + destruct (bucket !! _), (bucket' !! _); reflexivity.
    + destruct (bucket !! contentKey digest data props) eqn:Hk; simpl.
      * rewrite Hk. reflexivity.
      * rewrite lookup_insert_eq. reflexivity.
    + intros k Hk.
      destruct (bucket !! contentKey digest data props) eqn:Hb; simpl in *.
      * reflexivity.
      * apply lookup_insert_ne. congruence.
Qed.

End Claims.

(** ** The claims on the simulated control plane *)

(** C1 on a deployment of an unchanged template to an existing stack. *)
Lemma deployStack_no_changes_is_noop_witness :
  let r := run (deployStack Sim.world (Sim.deploy Sim.small None None None))
             (Sim.cloud (Some "UPDATE_COMPLETE") []) in
  (exists c, In (EvDeleteChangeSet "demo" "CDK-id-0" c) (trace_of r)) /\
  (forall n cs c, ~ In (EvExecuteChangeSet n cs c) (trace_of r)) /\
  exists result,
    outcome r = Return result /\
    DeployStackResult.noOp result = true /\
    DeployStackResult.stackArn result = "arn:aws:cloudformation:stack/demo" /\
    DeployStackResult.outputs result !! "QueueUrl"
    = Some "https://queue.example".
Proof.
  intros r.
  assert (Hin : In (EvWaitForChangeSet "demo" "CDK-id-0"
                      (Return (Some {| CloudFormation.Changes := Some [] |})))
                  (trace_of r)) by found.
  destruct (deployStack_no_changes_is_noop Sim.world
              (Sim.deploy Sim.small None None None)
              (Sim.cloud (Some "UPDATE_COMPLETE") []) "demo" "CDK-id-0"
              (Some {| CloudFormation.Changes := Some [] |}) Hin
              (or_intror
                 (ex_intro _ {| CloudFormation.Changes := Some [] |}
                    (conj eq_refl (or_intror eq_refl)))))
    as (Hdel & Hexe & Hres).
  split; [exact Hdel |]. split; [exact Hexe |].
  destruct Hres as (request & created & current & result & Hcreate & _ & _
                    & Hlast & Hout & Hnoop & Harn & Houtputs).
  - intros e H. vm_compute in H.
    repeat (destruct H as [H | H]; [discriminate H |]). exact H.
  - intros e H. vm_compute in H.
    repeat (destruct H as [H | H]; [discriminate H |]). exact H.
  - exists result. split; [exact Hout |]. split; [exact Hnoop |].
    vm_compute in Hlast. inversion Hlast; subst current.
    vm_compute in Hcreate.
    repeat (destruct Hcreate as [Hcreate | Hcreate];
            [try discriminate Hcreate |]); [| contradiction].
    inversion Hcreate; subst created.
    split; [exact Harn |]. rewrite Houtputs. reflexivity.
Defined.

(** C2 on a first deployment. *)
Lemma changeSetType_follows_stackExists_witness :
  let r := run (deployStack Sim.world (Sim.deploy Sim.small None None None))
             (Sim.cloud None [Sim.change]) in
  exists update : bool,
    In (EvStackExists "demo" (Return update)) (trace_of r) /\
    (CloudFormation.ChangeSetType
       (Sim.request CloudFormation.CREATE (Some Sim.small) None)
     = CloudFormation.CREATE <-> update = false).
Proof.
  intros r.
  assert (Hin : In (EvCreateChangeSet
                      (Sim.request CloudFormation.CREATE (Some Sim.small) None)
                      (Return Sim.created)) (trace_of r)) by found.
  destruct (changeSetType_follows_stackExists Sim.world
              (Sim.deploy Sim.small None None None) (Sim.cloud None [Sim.change])
              _ _ Hin) as (update & Hex & _ & _ & Hcreate & _).
  exists update. split; assumption.
Defined.

(** C3.  The size [makeBodyParameter] tests is [templateJson.length], a
    count of UTF-16 code units, not of bytes.  A template of 51199 spaces and
    one accented letter is 51201 bytes long, more than 50 * 1024, and has
    51200 code units: with no toolkit [deployStack] does not fail on it; it
    creates the change set with the template inline, executes it and
    returns. *)
Lemma template_size_is_tested_in_code_units :
  let r := run (deployStack Sim.world
                  (Sim.deploy Sim.accented None None None))
             (Sim.cloud None [Sim.change]) in
  (50 * 1024 < Z.of_nat (String.length Sim.accented))%Z /\
  Z.of_nat (js_length Sim.accented) = (50 * 1024)%Z /\
  too_large Sim.accented = false /\
  completed (outcome r) = true /\
  existsb carries_inline_body (trace_of r) = true /\
  existsb is_executeChangeSet (trace_of r) = true.
Proof.
  intros r.
  split; [vm_compute; reflexivity |].
  split; [vm_compute; reflexivity |].
  split; [vm_compute; reflexivity |].
  split; [vm_compute; reflexivity |].
  split; vm_compute; reflexivity.
Qed.

(** C4 on a stack left in CREATE_FAILED, where the deletion succeeds and
    where it ends in DELETE_FAILED. *)
Lemma failed_creation_is_deleted_first_witness :
  (let r := run (deployStack Sim.world (Sim.deploy Sim.small None None None))
              (Sim.cloud (Some "CREATE_FAILED") [Sim.change]) in
   (exists c, In (EvDeleteStack "demo" None c) (trace_of r)) /\
   each_preceded_by is_awaited_deletion is_createChangeSet (trace_of r)
   = true) /\
  (let r := run (deployStack Sim.world (Sim.deploy Sim.small None None None))
              (Sim.sticky (Sim.cloud (Some "CREATE_FAILED") [Sim.change])) in
   outcome r =
     Throw (mkError (failed_deleting_message "demo" "DELETE_FAILED")) /\
   never is_createChangeSet (trace_of r) = true).
Proof.
  split; intros r.
  - assert (Hin : In (EvStackFailedCreating "demo" (Return true)) (trace_of r))
      by found.
    destruct (failed_creation_is_deleted_first Sim.world
                (Sim.deploy Sim.small None None None)
                (Sim.cloud (Some "CREATE_FAILED") [Sim.change]) "demo" Hin)
      as (Hdel & _ & Hbefore & _).
    split; assumption.
  - assert (Hin : In (EvStackFailedCreating "demo" (Return true)) (trace_of r))
      by found.
    destruct (failed_creation_is_deleted_first Sim.world
                (Sim.deploy Sim.small None None None)
                (Sim.sticky (Sim.cloud (Some "CREATE_FAILED") [Sim.change]))
                "demo" Hin)
      as (_ & _ & _ & _ & Hstuck).
    apply (Hstuck
             {| CloudFormation.StackStatus := "DELETE_FAILED";
                CloudFormation.StackStatusReason := None;
                CloudFormation.Outputs := Some [Sim.output] |}).
    + found.
    + discriminate.
Defined.

(** C5 on an existing stack, where the deletion ends in DELETE_FAILED and
    where it succeeds. *)
Lemma destroyStack_verifies_deletion_witness :
  (let r := run (destroyStack Sim.world (Sim.destroy None None))
              (Sim.sticky (Sim.cloud (Some "CREATE_COMPLETE") [])) in
   exists err,
     outcome r = Throw err /\
     message err = "Failed to destroy demo: DELETE_FAILED") /\
  (let r := run (destroyStack Sim.world (Sim.destroy None None))
              (Sim.cloud (Some "CREATE_COMPLETE") []) in
   outcome r = Return tt).
Proof.
  split; intros r.
  - assert (Hin : In (EvWaitForStack "demo" (Some false)
                        (Return (Some
                           {| CloudFormation.StackStatus := "DELETE_FAILED";
                              CloudFormation.StackStatusReason := None;
                              CloudFormation.Outputs := Some [Sim.output] |})))
                    (trace_of r)) by found.
    destruct (destroyStack_verifies_deletion Sim.world
                (Sim.destroy None None)
                (Sim.sticky (Sim.cloud (Some "CREATE_COMPLETE") []))
                _ _ _ Hin) as (_ & _ & Hthrow & _).
    destruct (Hthrow _ eq_refl ltac:(discriminate))
      as (err & Hout & _ & Hnames).
    exists err. split; [exact Hout |].
    exact (Hnames "" "" eq_refl).
  - assert (Hin : In (EvWaitForStack "demo" (Some false) (Return None))
                    (trace_of r)) by found.
    destruct (destroyStack_verifies_deletion Sim.world
                (Sim.destroy None None)
                (Sim.cloud (Some "CREATE_COMPLETE") [])
                _ _ _ Hin) as (_ & _ & _ & Hreturn).
    apply Hreturn. left. reflexivity.
Defined.

(** C6 on the second of two destructions of the same stack. *)
Lemma destroyStack_absent_is_noop_witness :
  let first := run (destroyStack Sim.world (Sim.destroy None None))
                 (Sim.cloud (Some "CREATE_COMPLETE") []) in
  let r := run (destroyStack Sim.world (Sim.destroy None None))
             (final_state first) in
  outcome first = Return tt /\
  existsb is_deleteStack (trace_of first) = true /\
  outcome r = Return tt /\
  never is_deleteStack (trace_of r) = true /\
  never is_mutation (trace_of r) = true.
Proof.
  intros first r.
  assert (Hin : In (EvStackExists "demo" (Return false)) (trace_of r))
    by found.
  destruct (destroyStack_absent_is_noop Sim.world (Sim.destroy None None)
              (final_state first) "demo" Hin) as (Hret & Hdel & Hmut & _).
  repeat split; assumption.
Defined.

(** C7 on a first deployment with a toolkit bucket. *)
Lemma toolkit_template_is_passed_by_url_witness :
  let r := run (deployStack Sim.world
                  (Sim.deploy Sim.small (Some Sim.toolkit) None None))
             (Sim.cloud None [Sim.change]) in
  CloudFormation.TemplateBody
    (Sim.request CloudFormation.CREATE None
       (Some "https://bucket.example/cdk/demo/13.yml")) = None.
Proof.
  intros r.
  assert (Hin : In (EvCreateChangeSet
                      (Sim.request CloudFormation.CREATE None
                         (Some "https://bucket.example/cdk/demo/13.yml"))
                      (Return Sim.created)) (trace_of r)) by found.
  destruct (proj1 (toolkit_template_is_passed_by_url Sim.world)
              (Sim.deploy Sim.small (Some Sim.toolkit) None None)
              (Sim.cloud None [Sim.change]) Sim.toolkit _ _ eq_refl Hin)
    as [Hbody _].
  exact Hbody.
Defined.

(** C8, as the code has it, on a first deployment. *)
Lemma monitor_starts_after_execute_witness :
  let r := run (deployStack Sim.world (Sim.deploy Sim.small None None None))
             (Sim.cloud None [Sim.change]) in
  each_preceded_by is_executeChangeSet is_monitorStart (trace_of r) = true /\
  each_preceded_by is_waitForStack is_monitorStop (trace_of r) = true.
Proof.
  intros r.
  assert (Hin : In (EvExecuteChangeSet "demo" "CDK-id-0" (Return tt))
                  (trace_of r)) by found.
  destruct (monitor_starts_after_execute Sim.world
              (Sim.deploy Sim.small None None None)
              (Sim.cloud None [Sim.change]) "demo" "CDK-id-0" eq_refl Hin)
    as (Hstart & Hstop & _).
  split; assumption.
Defined.

(** C8, as stated, fails: on a first deployment that is not quiet and whose
    wait for the stack is throttled, the change set is executed before the
    monitor is started, and the monitor is never stopped. *)
Lemma monitor_does_not_bracket_execution :
  let options := Sim.deploy Sim.small None None None in
  let r := run (deployStack Sim.world options)
             (Sim.throttled (Sim.cloud None [Sim.change])) in
  truthy (DeployStackOptions.quiet options) = false /\
  existsb is_executeChangeSet (trace_of r) = true /\
  each_preceded_by is_monitorStart is_executeChangeSet (trace_of r) = false /\
  existsb is_monitorStop (trace_of r) = false /\
  ~ monitor_brackets_execution (trace_of r).
Proof.
  intros options r. repeat split.
  intros [Hstart _]. vm_compute in Hstart. discriminate Hstart.
Qed.

(** C10 on a deployment whose deploy name is the empty string and on a
    destruction without a deploy name. *)
Lemma deployName_defaults_to_stack_name_witness :
  Forall (fun e => forall n, event_stack_name e = Some n -> n = "demo")
    (trace_of (run (deployStack Sim.world
                      (Sim.deploy Sim.small None (Some "") None))
                 (Sim.cloud None [Sim.change]))) /\
  Forall (fun e => forall n, event_stack_name e = Some n -> n = "demo")
    (trace_of (run (destroyStack Sim.world (Sim.destroy None None))
                 (Sim.cloud (Some "CREATE_COMPLETE") []))).
Proof.
  split.
  - apply (proj1 (deployName_defaults_to_stack_name Sim.world)
             (Sim.deploy Sim.small None (Some "") None)).
    right. reflexivity.
  - apply (proj2 (deployName_defaults_to_stack_name Sim.world)
             (Sim.destroy None None)).
    left. reflexivity.
Defined.

(** ** Further properties of the module *)

Section FailStop.
Context {Metadata : Type}.

Lemma fail_stop_spec {A} (tr : Trace Metadata) (out : Completion A) :
  fail_stop tr out ->
  forall pre e post err,
    tr = (pre ++ e :: post)%list -> thrown e = Some err ->
    post = [] /\ out = Throw err.
Proof.
  induction tr as [| e0 tr IH]; intros Hfs pre e post err Heq Hthrown.
  - destruct pre; discriminate Heq.
  - destruct pre as [| e1 pre]; simpl in Heq; inversion Heq; subst; clear Heq.
    + simpl in Hfs. destruct post as [| e2 post].
      * rewrite Hthrown in Hfs. split; [reflexivity | exact Hfs].
      * destruct Hfs as [Hnone _]. congruence.
    + simpl in Hfs. destruct (pre ++ e :: post)%list eqn:Hl.
      * destruct pre; discriminate Hl.
      * destruct Hfs as [_ Hfs].
        apply (IH Hfs pre e post err (eq_sym Hl) Hthrown).
Qed.

Lemma no_changes_false_length
    (d : option CloudFormation.DescribeChangeSetOutput) :
  no_changes d = false -> 0 < changes_length d.
Proof.
  destruct d as [[[l |]] |]; simpl; try discriminate.
  destruct l; simpl; [discriminate | lia].
Qed.

Lemma not_deleted_true (a : option CloudFormation.Stack) :
  not_deleted a = true ->
  exists d, a = Some d /\ CloudFormation.StackStatus d <> "DELETE_COMPLETE".
Proof.
  destruct a as [d |]; simpl; [| discriminate].
  intros H. exists d. split; [reflexivity |].
  apply String.eqb_neq. apply negb_true_iff. exact H.
Qed.

End FailStop.

Section Extras.
Context {Template Metadata St : Type}.
Variable w : World Template Metadata St.
Implicit Types (s : St) (tr : Trace Metadata).

(** X1.  [getStackOutputs] asks [describeStack] once; when that answers, the
    value it returns for a key other than [__proto__] is the value of the
    last listed output that has this key, and nothing is stored under
    [__proto__]. *)
Theorem getStackOutputs_last_output_wins (stackName : string) s s'
    (description : option CloudFormation.Stack)
    (pre post : list CloudFormation.Output) (o : CloudFormation.Output) :
  describeStack w stackName s = (Return description, s') ->
  described_outputs description = (pre ++ o :: post)%list ->
  (forall o', In o' post ->
              CloudFormation.OutputKey o' <> CloudFormation.OutputKey o) ->
  CloudFormation.OutputKey o <> "__proto__" ->
  let r := run (getStackOutputs w stackName) s in
  trace_of r = [EvDescribeStack stackName (Return description)] /\
  exists outputs,
    outcome r = Return outputs /\
    outputs !! CloudFormation.OutputKey o
    = Some (CloudFormation.OutputValue o) /\
    outputs !! "__proto__" = None.
Proof.
  intros Hcall Hlist Hlast Hproto r; subst r.
  unfold run, trace_of, outcome, getStackOutputs, bind, call, ret; simpl.
  rewrite Hcall; simpl. split; [reflexivity |].
  eexists; split; [reflexivity |].
  rewrite !collect_outputs_lookup. split; [| reflexivity].
  apply String.eqb_neq in Hproto. rewrite Hproto.
  change (match description with
          | Some d =>
              match CloudFormation.Outputs d with
              | Some outs => outs
              | None => []
              end
          | None => []
          end) with (described_outputs description).
  rewrite Hlist, List.filter_app; simpl. rewrite String.eqb_refl.
  assert (Hpost : List.filter
                    (fun o0 => String.eqb (CloudFormation.OutputKey o0)
                                 (CloudFormation.OutputKey o)) post = []).
  { clear - Hlast. induction post as [| o' post IH]; simpl; [reflexivity |].
    destruct (String.eqb_spec (CloudFormation.OutputKey o')
                (CloudFormation.OutputKey o)) as [Heq | Hne].
    - exfalso. apply (Hlast o'); [left; reflexivity | exact Heq].
    - apply IH. intros o'' Hin. apply Hlast. right. exact Hin. }
  rewrite Hpost, last_snoc. reflexivity.
Qed.

(** X2.  A key is absent from the result of [getStackOutputs] exactly when
    it is [__proto__] or no listed output has it: in particular the result
    is empty when the stack is not described or its description lists no
    outputs. *)
Theorem getStackOutputs_missing_key (stackName : string) s s'
    (description : option CloudFormation.Stack) (k : string) :
  describeStack w stackName s = (Return description, s') ->
  exists outputs,
    outcome (run (getStackOutputs w stackName) s)
    = Return outputs /\
    (outputs !! k = None <->
     k = "__proto__" \/
     forall o, In o (described_outputs description) ->
               CloudFormation.OutputKey o <> k) /\
    (described_outputs description = [] -> outputs = ∅).
Proof.
  intros Hcall.
  unfold run, trace_of, outcome, getStackOutputs, bind, call, ret; simpl.
  rewrite Hcall; simpl. eexists; split; [reflexivity |]. split.
  - rewrite collect_outputs_lookup.
    change (match description with
            | Some d =>
                match CloudFormation.Outputs d with
                | Some outs => outs
                | None => []
                end
            | None => []
            end) with (described_outputs description).
    destruct (String.eqb_spec k "__proto__") as [Hk | Hk];
      [split; [left; exact Hk | reflexivity] |].
    assert (Hiff : forall outs : list CloudFormation.Output,
               last (List.filter
                       (fun o => String.eqb (CloudFormation.OutputKey o) k)
                       outs) = None
               <-> forall o, In o outs -> CloudFormation.OutputKey o <> k).
    { intros outs. induction outs as [| o outs IH] using rev_ind.
      - simpl. split; [intros _ o [] | reflexivity].
      - rewrite List.filter_app; simpl.
        destruct (String.eqb_spec (CloudFormation.OutputKey o) k)
          as [Heq | Hne].
        + rewrite last_snoc. split; [discriminate |].
          intros H. exfalso. apply (H o); [| exact Heq].
          apply in_or_app. right. left. reflexivity.
        + rewrite app_nil_r. rewrite IH. split.
          * intros H o' Hin. apply in_app_or in Hin.
            destruct Hin as [Hin | [<- | []]];
              [apply H; exact Hin | exact Hne].
          * intros H o' Hin. apply H. apply in_or_app. left. exact Hin. }
    rewrite <- Hiff.
    destruct (last _); simpl; split; try discriminate; try reflexivity.
    + intros [H | H]; [contradiction | discriminate H].
    + intros _. right. reflexivity.
  - unfold collect_outputs, described_outputs.
    destruct description as [d |]; [| reflexivity].
    destruct (CloudFormation.Outputs d); [| reflexivity].
    intros ->. reflexivity.
Qed.

(** X3.  Without an environment on the stack, [deployStack] and
    [destroyStack] throw before calling anything: the trace is empty and the
    outside world is as it was.  With one, they always call out. *)
Theorem missing_environment_fails_fast :
  (forall (options : DeployStackOptions.t Template Metadata) s,
     let r := run (deployStack w options) s in
     let stack := DeployStackOptions.stack options in
     (SynthesizedStack.environment stack = None ->
      outcome r =
        Throw (mkError (no_environment_message (SynthesizedStack.name stack)))
      /\ final_state r = s) /\
     (trace_of r = [] <-> SynthesizedStack.environment stack = None)) /\
  (forall (options : DestroyStackOptions.t Template Metadata) s,
     let r := run (destroyStack w options) s in
     let stack := DestroyStackOptions.stack options in
     (SynthesizedStack.environment stack = None ->
      outcome r =
        Throw (mkError (no_environment_message (SynthesizedStack.name stack)))
      /\ final_state r = s) /\
     (trace_of r = [] <-> SynthesizedStack.environment stack = None)).
Proof.
  split.
  - intros [[name env template metadata] tk role dn quiet] s; simpl.
    exit_paths; (split; [intros H; try discriminate H; auto |]).
    all: split; intros H; try discriminate H; reflexivity.
  - intros [[name env template metadata] role dn quiet] s; simpl.
    exit_paths; (split; [intros H; try discriminate H; auto |]).
    all: split; intros H; try discriminate H; reflexivity.
Qed.

(** X4.  Nothing is retried or swallowed: when a call of a [deployStack] or
    [destroyStack] run throws, it is the last call of the run and its error
    is the outcome, unchanged. *)
Theorem remote_errors_propagate :
  (forall (options : DeployStackOptions.t Template Metadata) s pre e post err,
     let r := run (deployStack w options) s in
     trace_of r = (pre ++ e :: post)%list -> thrown e = Some err ->
     post = [] /\ outcome r = Throw err) /\
  (forall (options : DestroyStackOptions.t Template Metadata) s pre e post err,
     let r := run (destroyStack w options) s in
     trace_of r = (pre ++ e :: post)%list -> thrown e = Some err ->
     post = [] /\ outcome r = Throw err).
Proof.
  split.
  - intros [[name env template metadata] tk role dn quiet] s pre e post err r.
    apply fail_stop_spec. subst r. exit_paths; simpl; auto 20.
  - intros [[name env template metadata] role dn quiet] s pre e post err r.
    apply fail_stop_spec. subst r. exit_paths; simpl; auto 20.
Qed.

(** X5.  The errors of [deployStack]: an error it throws is either the
    error of its last call, or the error [YAML.safeDump] threw on the
    template, or one of its own three: the missing environment, the template
    too large without a toolkit, or a failed stack whose deletion did not end
    in DELETE_COMPLETE. *)
Theorem deployStack_error_taxonomy
    (options : DeployStackOptions.t Template Metadata) s (err : Error) :
  let r := run (deployStack w options) s in
  let stack := DeployStackOptions.stack options in
  let deployName :=
    or_else (DeployStackOptions.deployName options)
      (SynthesizedStack.name stack) in
  outcome r = Throw err ->
  (exists e, last (trace_of r) = Some e /\ thrown e = Some err) \/
  (SynthesizedStack.environment stack = None /\
   err = mkError (no_environment_message (SynthesizedStack.name stack))) \/
  YAML_safeDump w (SynthesizedStack.template stack) = Throw err \/
  (DeployStackOptions.toolkitInfo options = None /\
   (exists templateJson,
      YAML_safeDump w (SynthesizedStack.template stack) = Return templateJson
      /\ too_large templateJson = true) /\
   err = mkError too_large_message) \/
  (exists d,
     In (EvWaitForStack deployName (Some false) (Return (Some d)))
       (trace_of r) /\
     CloudFormation.StackStatus d <> "DELETE_COMPLETE" /\
     err = mkError (failed_deleting_message deployName
                      (CloudFormation.StackStatus d))).
Proof.
  destruct options as [[name env template metadata] tk role dn quiet].
  intros r stack deployName; subst r stack deployName.
  exit_paths; intros H; inversion H; subst; clear H.
  all: try (left; eexists; split; reflexivity).
  all: try (right; left; split; reflexivity).
  all: try (right; right; left; reflexivity).
  all: try (right; right; right; left; split; [reflexivity |];
            split; [eexists; split; [reflexivity | eassumption]
                   | reflexivity]).
  all: right; right; right; right.
  all: match goal with
       | H : not_deleted _ = true |- _ =>
           apply not_deleted_true in H; destruct H as (d & -> & Hd)
       end.
  all: exists d; simpl; repeat split; auto 20.
Qed.

(** X6.  The errors of [destroyStack]: the error of its last call, the
    missing environment, or a stack that is still there after the wait with
    a status other than DELETE_COMPLETE. *)
Theorem destroyStack_error_taxonomy
    (options : DestroyStackOptions.t Template Metadata) s (err : Error) :
  let r := run (destroyStack w options) s in
  let stack := DestroyStackOptions.stack options in
  let deployName :=
    or_else (DestroyStackOptions.deployName options)
      (SynthesizedStack.name stack) in
  outcome r = Throw err ->
  (exists e, last (trace_of r) = Some e /\ thrown e = Some err) \/
  (SynthesizedStack.environment stack = None /\
   err = mkError (no_environment_message (SynthesizedStack.name stack))) \/
  (exists d,
     In (EvWaitForStack deployName (Some false) (Return (Some d)))
       (trace_of r) /\
     CloudFormation.StackStatus d <> "DELETE_COMPLETE" /\
     err = mkError (failed_to_destroy_message deployName
                      (StackStatus_fromStackDescription w d))).
Proof.
  destruct options as [[name env template metadata] role dn quiet].
  intros r stack deployName; subst r stack deployName.
  exit_paths; intros H; inversion H; subst; clear H.
  all: try (left; eexists; split; reflexivity).
  all: try (right; left; split; reflexivity).
  all: right; right.
  all: match goal with
       | H : not_deleted _ = true |- _ =>
           apply not_deleted_true in H; destruct H as (d & -> & Hd)
       end.
  all: exists d; simpl; repeat split; auto 20.
Qed.

(** X7.  What a result of [deployStack] means: every call of the run
    completed; [noOp] tells whether the change set described by
    [waitForChangeSet] had no changes; the change set was deleted when
    [noOp] holds and executed when it does not; [stackArn] is the [StackId]
    answered by [createChangeSet]; and [outputs] are collected from the last
    call of the run, a [describeStack]. *)
Theorem deployStack_result_meaning
    (options : DeployStackOptions.t Template Metadata) s
    (result : DeployStackResult.t) :
  let r := run (deployStack w options) s in
  outcome r = Return result ->
  all_completed (trace_of r) = true /\
  existsb is_deleteChangeSet (trace_of r) = DeployStackResult.noOp result /\
  existsb is_executeChangeSet (trace_of r)
  = negb (DeployStackResult.noOp result) /\
  exists request created description current n cs,
    In (EvCreateChangeSet request (Return created)) (trace_of r) /\
    DeployStackResult.stackArn result = CloudFormation.StackId created /\
    In (EvWaitForChangeSet n cs (Return description)) (trace_of r) /\
    DeployStackResult.noOp result = no_changes description /\
    last (trace_of r) = Some (EvDescribeStack n (Return current)) /\
    DeployStackResult.outputs result = collect_outputs current.
Proof.
  destruct options as [[name env template metadata] tk role dn quiet].
  intros r; subst r.
  exit_paths; intros H; inversion H; subst; clear H; simpl.
  all: do 3 (split; [reflexivity |]).
  all: do 6 eexists; repeat split; simpl; eauto 20.
Qed.

(** X8.  A run creates at most one change set and settles it at most once.
    Once [waitForChangeSet] has answered, the change set is either deleted or
    executed, never both; when [waitForChangeSet] throws, it is neither. *)
Theorem change_set_is_settled_once
    (options : DeployStackOptions.t Template Metadata) s :
  let r := run (deployStack w options) s in
  count_of is_createChangeSet (trace_of r) <= 1 /\
  count_of is_deleteChangeSet (trace_of r)
  + count_of is_executeChangeSet (trace_of r) <= 1 /\
  (forall n cs d,
     In (EvWaitForChangeSet n cs (Return d)) (trace_of r) ->
     count_of is_deleteChangeSet (trace_of r)
     + count_of is_executeChangeSet (trace_of r) = 1) /\
  (forall n cs err,
     In (EvWaitForChangeSet n cs (Throw err)) (trace_of r) ->
     count_of is_deleteChangeSet (trace_of r)
     + count_of is_executeChangeSet (trace_of r) = 0).
Proof.
  destruct options as [[name env template metadata] tk role dn quiet].
  intros r; subst r. exit_paths; unfold count_of; simpl.
  all: (split; [lia |]); (split; [lia |]).
  all: split; intros n cs d Hin; which_event Hin; try reflexivity.
  all: inversion Hin.
Qed.

(** X9.  One execution identifier is drawn per run, and every call about a
    change set names the same one, [CDK-] followed by that identifier, which
    is also the one the description of the request quotes. *)
Theorem change_set_is_named_after_the_execution
    (options : DeployStackOptions.t Template Metadata) s :
  let r := run (deployStack w options) s in
  count_of is_uuid (trace_of r) <= 1 /\
  (forall e cs,
     In e (trace_of r) -> event_change_set e = Some cs ->
     exists id,
       In (EvUuid id) (trace_of r) /\ cs = "CDK-" +:+ id /\
       forall request c,
         e = EvCreateChangeSet request c ->
         CloudFormation.Description request
         = "CDK Changeset for execution " +:+ id).
Proof.
  destruct options as [[name env template metadata] tk role dn quiet].
  intros r; subst r. exit_paths; unfold count_of; simpl.
  all: split; [lia |]; intros ev cs' Hin Hcs.
  all: repeat (destruct Hin as [<- | Hin]; [try discriminate Hcs |]);
    try contradiction.
  all: inversion Hcs; subst; clear Hcs.
  all: eexists; split; [eauto 20 |]; split; [reflexivity |].
  all: intros request' c' Heq; inversion Heq; reflexivity.
Qed.

(** X10.  Every [createChangeSet] request asks for both IAM capabilities,
    carries [options.roleArn] as it is, and passes the parameters that
    [prepareAssets] answered. *)
Theorem request_capabilities_role_and_parameters
    (options : DeployStackOptions.t Template Metadata) s request c :
  let r := run (deployStack w options) s in
  In (EvCreateChangeSet request c) (trace_of r) ->
  CloudFormation.Capabilities request
  = [CloudFormation.CAPABILITY_IAM; CloudFormation.CAPABILITY_NAMED_IAM] /\
  CloudFormation.RoleARN request = DeployStackOptions.roleArn options /\
  exists params,
    In (EvPrepareAssets (Return params)) (trace_of r) /\
    CloudFormation.Parameters request = params.
Proof.
  destruct options as [[name env template metadata] tk role dn quiet].
  intros r; subst r. exit_paths; intros Hin; which_event Hin.
  all: inversion Hin; subst; clear Hin; simpl.
  all: do 2 (split; [reflexivity |]); eexists; split; [eauto 20 | reflexivity].
Qed.

(** X11.  A [createChangeSet] request carries the template either inline or
    by URL, never both and never neither: inline exactly when no toolkit is
    configured. *)
Theorem request_body_is_exclusive
    (options : DeployStackOptions.t Template Metadata) s request c :
  let r := run (deployStack w options) s in
  In (EvCreateChangeSet request c) (trace_of r) ->
  (DeployStackOptions.toolkitInfo options = None /\
   is_Some (CloudFormation.TemplateBody request) /\
   CloudFormation.TemplateURL request = None) \/
  (is_Some (DeployStackOptions.toolkitInfo options) /\
   CloudFormation.TemplateBody request = None /\
   is_Some (CloudFormation.TemplateURL request)).
Proof.
  destruct options as [[name env template metadata] tk role dn quiet].
  intros r; subst r. exit_paths; intros Hin; which_event Hin.
  all: inversion Hin; subst; clear Hin; simpl.
  all: first
         [ left; split; [reflexivity |];
           split; [eexists; reflexivity | reflexivity]
         | right; split; [eexists; reflexivity |];
           split; [reflexivity | eexists; reflexivity] ].
Qed.

(** X12.  A deploy name that is given and not empty replaces the name of the
    stack in every control-plane request and monitor of [deployStack] and
    [destroyStack]. *)
Theorem explicit_deployName_is_used (deployName : string) :
  deployName <> "" ->
  (forall (options : DeployStackOptions.t Template Metadata) s,
     DeployStackOptions.deployName options = Some deployName ->
     Forall (fun e => forall n, event_stack_name e = Some n -> n = deployName)
       (trace_of (run (deployStack w options) s))) /\
  (forall (options : DestroyStackOptions.t Template Metadata) s,
     DestroyStackOptions.deployName options = Some deployName ->
     Forall (fun e => forall n, event_stack_name e = Some n -> n = deployName)
       (trace_of (run (destroyStack w options) s))).
Proof.
  intros Hne.
  assert (Hor : forall b, or_else (Some deployName) b = deployName).
  { intros b. destruct deployName; [congruence | reflexivity]. }
  split.
  - intros [[name env template metadata] tk role dn quiet] s; simpl.
    intros ->. exit_paths.
    all: repeat constructor; simpl; rewrite ?Hor; congruence.
  - intros [[name env template metadata] role dn quiet] s; simpl.
    intros ->. exit_paths.
    all: repeat constructor; simpl; rewrite ?Hor; congruence.
Qed.

(** X13.  The template is uploaded only with a toolkit: without one no
    upload is ever issued; with one there is at most one upload and it comes
    before every control-plane request. *)
Theorem template_upload_needs_a_toolkit
    (options : DeployStackOptions.t Template Metadata) s :
  let r := run (deployStack w options) s in
  count_of is_upload (trace_of r) <= 1 /\
  (DeployStackOptions.toolkitInfo options = None ->
   never is_upload (trace_of r) = true) /\
  (is_Some (DeployStackOptions.toolkitInfo options) ->
   each_preceded_by is_upload is_control_plane_call (trace_of r) = true).
Proof.
  destruct options as [[name env template metadata] tk role dn quiet].
  intros r; subst r. exit_paths; unfold count_of; simpl.
  all: split; [lia |]; split; intros H; try reflexivity.
  all: first [discriminate H | destruct H as [x H]; discriminate H].
Qed.

(** X14.  At most one [deleteStack] is issued per run.  The one of
    [destroyStack] carries [options.roleArn]; the one [deployStack] issues
    to clear a failed stack carries no role. *)
Theorem deleteStack_role :
  (forall (options : DeployStackOptions.t Template Metadata) s,
     let r := run (deployStack w options) s in
     count_of is_deleteStack (trace_of r) <= 1 /\
     forall e role, In e (trace_of r) -> event_delete_role e = Some role ->
                    role = None) /\
  (forall (options : DestroyStackOptions.t Template Metadata) s,
     let r := run (destroyStack w options) s in
     count_of is_deleteStack (trace_of r) <= 1 /\
     forall e role, In e (trace_of r) -> event_delete_role e = Some role ->
                    role = DestroyStackOptions.roleArn options).
Proof.
  split.
  - intros [[name env template metadata] tk role dn quiet] s r; subst r.
    exit_paths; unfold count_of; simpl.
    all: split; [lia |]; intros ev role' Hin Hrole.
    all: repeat (destruct Hin as [<- | Hin]; [try discriminate Hrole |]);
      try contradiction.
    all: inversion Hrole; reflexivity.
  - intros [[name env template metadata] role dn quiet] s r; subst r.
    exit_paths; unfold count_of; simpl.
    all: split; [lia |]; intros ev role' Hin Hrole.
    all: repeat (destruct Hin as [<- | Hin]; [try discriminate Hrole |]);
      try contradiction.
    all: inversion Hrole; reflexivity.
Qed.

(** X15.  A monitor is started only in runs that are not quiet.  The one
    of [deployStack] is given the metadata of the stack and the number of
    changes of the described change set, which is positive; the one of
    [destroyStack] is given neither. *)
Theorem monitor_is_told_the_change_count :
  (forall (options : DeployStackOptions.t Template Metadata) s n md total,
     let r := run (deployStack w options) s in
     In (EvMonitorStart n md total) (trace_of r) ->
     truthy (DeployStackOptions.quiet options) = false /\
     md = Some (SynthesizedStack.metadata (DeployStackOptions.stack options))
     /\
     exists cs d,
       In (EvWaitForChangeSet n cs (Return d)) (trace_of r) /\
       total = Some (changes_length d) /\ 0 < changes_length d) /\
  (forall (options : DestroyStackOptions.t Template Metadata) s n md total,
     let r := run (destroyStack w options) s in
     In (EvMonitorStart n md total) (trace_of r) ->
     truthy (DestroyStackOptions.quiet options) = false /\
     md = None /\ total = None).
Proof.
  split.
  - intros [[name env template metadata] tk role dn quiet] s n md total r.
    subst r. exit_paths; intros Hin; which_event Hin.
    all: inversion Hin; subst; clear Hin; simpl.
    all: do 2 (split; [assumption || reflexivity |]).
    all: do 2 eexists; split; [eauto 20 |]; split; [reflexivity |].
    all: apply no_changes_false_length; assumption.
  - intros [[name env template metadata] role dn quiet] s n md total r.
    subst r. exit_paths; intros Hin; which_event Hin.
    all: inversion Hin; subst; clear Hin; simpl.
    all: repeat split; assumption || reflexivity.
Qed.

(** X16.  In a [destroyStack] run that is not quiet and finds the stack,
    the monitor is started before the delete request; the wait follows a
    completed delete; and the monitor is stopped exactly when the wait
    returns: a throwing delete or wait ends the run with the monitor still
    started. *)
Theorem destroyStack_monitor_brackets_the_deletion
    (options : DestroyStackOptions.t Template Metadata) s (n : string) :
  let r := run (destroyStack w options) s in
  truthy (DestroyStackOptions.quiet options) = false ->
  In (EvStackExists n (Return true)) (trace_of r) ->
  exists c rest,
    after is_stackExists (trace_of r)
    = EvMonitorStart n None None
      :: EvDeleteStack n (DestroyStackOptions.roleArn options) c :: rest /\
    match c with
    | Throw _ => rest = []
    | Return _ =>
        exists c',
          rest = EvWaitForStack n (Some false) c'
                 :: match c' with
                    | Return _ => [EvMonitorStop n]
                    | Throw _ => []
                    end
    end.
Proof.
  destruct options as [[name env template metadata] role dn quiet].
  intros r; subst r. simpl DestroyStackOptions.quiet. intros Hquiet.
  exit_paths; try congruence; intros Hin; which_event Hin.
  all: inversion Hin; subst; clear Hin.
  all: do 2 eexists; (split; [reflexivity |]); simpl.
  all: try reflexivity.
  all: match goal with
       | |- exists c', (EvWaitForStack _ _ ?x :: _) = _ =>
           exists x; reflexivity
       end.
Qed.

(** X17.  The size logged for a template that is too large is its length in
    KiB rounded to the nearest integer, halves up, and is at least 50. *)
Theorem logged_size_is_rounded (templateJson : string) :
  let n := Z.of_nat (js_length templateJson) in
  (1024 * round_div_1024 n - 512 <= n < 1024 * round_div_1024 n + 512)%Z /\
  (too_large templateJson = true -> (50 <= round_div_1024 n)%Z).
Proof.
  intros n. unfold round_div_1024, too_large, LARGE_TEMPLATE_SIZE_KB.
  fold n.
  pose proof (Z.div_mod (n + 512) 1024 ltac:(lia)) as Hdm.
  pose proof (Z.mod_pos_bound (n + 512) 1024 ltac:(lia)) as Hmod.
  split; [lia |].
  intros H. apply Z.ltb_lt in H. lia.
Qed.

(** X18.  With no toolkit configured and a serialized template of more than
    50 * 1024 UTF-16 code units, [deployStack] fails and has issued no
    control-plane call; when the stack has an environment and the
    preparatory calls complete, the error is the one that names the remedy,
    [cdk bootstrap], and the guidance has been logged.  A template within
    the bound is inlined as [TemplateBody] by [makeBodyParameter], which
    calls nothing, and [deployStack] goes on to the control plane. *)
Theorem large_template_without_toolkit
    (options : DeployStackOptions.t Template Metadata) s
    (templateJson : string) :
  let r := run (deployStack w options) s in
  let stack := DeployStackOptions.stack options in
  DeployStackOptions.toolkitInfo options = None ->
  YAML_safeDump w (SynthesizedStack.template stack) = Return templateJson ->
  ((50 * 1024 < Z.of_nat (js_length templateJson))%Z ->
   (exists e, outcome r = Throw e) /\
   (forall e, In e (trace_of r) -> is_control_plane_call e = false) /\
   (forall environment,
      SynthesizedStack.environment stack = Some environment ->
      all_completed (trace_of r) = true ->
      outcome r
      = Throw (mkError
                 ("Template too large to deploy ("
                  +:+ String "034"%char "cdk bootstrap"
                  +:+ String "034"%char " is required)")) /\
      In (EvLogError
            (too_large_log (SynthesizedStack.name stack) templateJson)
            (colors_blue w
               (tab +:+ "$ cdk bootstrap " +:+ Environment.name environment
                +:+ newline)))
         (trace_of r))) /\
  ((Z.of_nat (js_length templateJson) <= 50 * 1024)%Z ->
   (forall st,
      makeBodyParameter w stack None st
      = (Return (TemplateBodyParameter.mk (Some templateJson) None), st)) /\
   (forall request c,
      In (EvCreateChangeSet request c) (trace_of r) ->
      CloudFormation.TemplateBody request = Some templateJson /\
      CloudFormation.TemplateURL request = None) /\
   (is_Some (SynthesizedStack.environment stack) ->
    all_completed (trace_of r) = true ->
    existsb is_control_plane_call (trace_of r) = true)).
Proof.
  destruct options as [[name env template metadata] tk role dn quiet].
  intros r stack; subst r stack; simpl.
  intros -> Hdump.
  assert (Hsize : forall t, (50 * 1024 < Z.of_nat (js_length t))%Z ->
                            too_large t = true).
  { intros t Ht. unfold too_large, LARGE_TEMPLATE_SIZE_KB.
    apply Z.ltb_lt. lia. }
  assert (Hfits : forall t, (Z.of_nat (js_length t) <= 50 * 1024)%Z ->
                            too_large t = false).
  { intros t Ht. unfold too_large, LARGE_TEMPLATE_SIZE_KB.
    apply Z.ltb_ge. lia. }
  split.
  - intros Hbig. apply Hsize in Hbig. revert Hdump.
    exit_paths; intros Hdump; inversion Hdump; subst; try congruence.
    all: (split; [eauto |]).
    all: (split; [intros ev Hin; which_event Hin; subst ev; reflexivity |]).
    all: intros environment Henv Hall; try discriminate.
    inversion Henv; subst; clear Henv.
    split; [reflexivity | simpl; auto 10].
  - intros Hsmall. apply Hfits in Hsmall. split.
    { intros st. unfold makeBodyParameter; simpl.
      rewrite Hdump, Hsmall. reflexivity. }
    revert Hdump.
    exit_paths; intros Hdump; inversion Hdump; subst; try congruence.
    all: split;
      [ intros request c Hin; which_event Hin;
        inversion Hin; subst; clear Hin; simpl; auto
      | intros [x Hx] Hall; try discriminate Hx; try discriminate Hall;
        reflexivity ].
Qed.

End Extras.

(** ** The further properties on the simulated control plane *)

(** X1 on a description that lists the key [QueueUrl] twice and the key
    [__proto__] once. *)
Lemma getStackOutputs_last_output_wins_witness :
  exists outputs,
    outcome (run (getStackOutputs Sim.world "demo") Sim.listing)
    = Return outputs /\
    outputs !! "QueueUrl" = Some "https://queue.example" /\
    outputs !! "__proto__" = None.
Proof.
  destruct (getStackOutputs_last_output_wins Sim.world "demo" Sim.listing
              Sim.listing (Sim.describe Sim.listing)
              (firstn 2 Sim.listed) [] Sim.output eq_refl eq_refl
              (fun o' (H : In o' []) => match H with end)
              ltac:(discriminate)) as [_ H].
  exact H.
Defined.

(** X2 on the same description and a key it does not list. *)
Lemma getStackOutputs_missing_key_witness :
  exists outputs,
    outcome (run (getStackOutputs Sim.world "demo") Sim.listing)
    = Return outputs /\
    outputs !! "TopicArn" = None.
Proof.
  destruct (getStackOutputs_missing_key Sim.world "demo" Sim.listing
              Sim.listing (Sim.describe Sim.listing) "TopicArn" eq_refl)
    as (outputs & Hout & Hiff & _).
  exists outputs. split; [exact Hout |].
  apply Hiff. right. intros o Hin. simpl in Hin.
  destruct Hin as [<- | [<- | [<- | []]]]; discriminate.
Defined.

(** X3 on a stack that has no environment. *)
Lemma missing_environment_fails_fast_witness :
  let stack := SynthesizedStack.mk "demo" None Sim.small tt in
  let s := Sim.cloud None [Sim.change] in
  (outcome (run (deployStack Sim.world
                   (DeployStackOptions.mk stack None None None None)) s)
   = Throw (mkError (no_environment_message "demo")) /\
   final_state (run (deployStack Sim.world
                       (DeployStackOptions.mk stack None None None None)) s)
   = s) /\
  (outcome (run (destroyStack Sim.world
                   (DestroyStackOptions.mk stack None None None)) s)
   = Throw (mkError (no_environment_message "demo")) /\
   final_state (run (destroyStack Sim.world
                       (DestroyStackOptions.mk stack None None None)) s)
   = s).
Proof.
  intros stack s. split.
  - apply (proj1 (proj1 (missing_environment_fails_fast Sim.world)
                    (DeployStackOptions.mk stack None None None None) s)).
    reflexivity.
  - apply (proj1 (proj2 (missing_environment_fails_fast Sim.world)
                    (DestroyStackOptions.mk stack None None None) s)).
    reflexivity.
Defined.

(** X4 on a destruction whose wait for the stack is throttled. *)
Lemma remote_errors_propagate_witness :
  let r := run (destroyStack Sim.world (Sim.destroy None None))
             (Sim.throttled (Sim.cloud (Some "CREATE_COMPLETE") [])) in
  outcome r = Throw (mkError "Throttling: Rate exceeded").
Proof.
  intros r.
  assert (Htr : trace_of r
                = (firstn 4 (trace_of r)
                   ++ EvWaitForStack "demo" (Some false)
                        (Throw (mkError "Throttling: Rate exceeded"))
                   :: [])%list) by (vm_compute; reflexivity).
  destruct (proj2 (remote_errors_propagate Sim.world)
              (Sim.destroy None None)
              (Sim.throttled (Sim.cloud (Some "CREATE_COMPLETE") []))
              _ _ _ (mkError "Throttling: Rate exceeded") Htr eq_refl)
    as [_ Hout].
  exact Hout.
Defined.

(** X5 on a failed stack whose deletion ends in DELETE_FAILED. *)
Lemma deployStack_error_taxonomy_witness :
  let r := run (deployStack Sim.world (Sim.deploy Sim.small None None None))
             (Sim.sticky (Sim.cloud (Some "CREATE_FAILED") [Sim.change])) in
  exists d,
    In (EvWaitForStack "demo" (Some false) (Return (Some d))) (trace_of r) /\
    CloudFormation.StackStatus d <> "DELETE_COMPLETE".
Proof.
  intros r.
  destruct (deployStack_error_taxonomy Sim.world
              (Sim.deploy Sim.small None None None)
              (Sim.sticky (Sim.cloud (Some "CREATE_FAILED") [Sim.change]))
              (mkError (failed_deleting_message "demo" "DELETE_FAILED"))
              eq_refl)
    as [(e & Hlast & Hthrown)
       | [(Henv & _) | [Hdump | [(_ & Hbig & _) | Hstuck]]]].
  - vm_compute in Hlast. inversion Hlast; subst. discriminate Hthrown.
  - discriminate Henv.
  - discriminate Hdump.
  - destruct Hbig as (templateJson & Hdump & Hbig).
    inversion Hdump; subst templateJson.
    vm_compute in Hbig. discriminate Hbig.
  - destruct Hstuck as (d & Hin & Hd & _). exists d. split; assumption.
Defined.

(** X6 on an existing stack whose deletion ends in DELETE_FAILED. *)
Lemma destroyStack_error_taxonomy_witness :
  let r := run (destroyStack Sim.world (Sim.destroy None None))
             (Sim.sticky (Sim.cloud (Some "CREATE_COMPLETE") [])) in
  exists d,
    In (EvWaitForStack "demo" (Some false) (Return (Some d))) (trace_of r) /\
    CloudFormation.StackStatus d <> "DELETE_COMPLETE".
Proof.
  intros r.
  destruct (destroyStack_error_taxonomy Sim.world (Sim.destroy None None)
              (Sim.sticky (Sim.cloud (Some "CREATE_COMPLETE") []))
              (mkError (failed_to_destroy_message "demo" "DELETE_FAILED"))
              eq_refl)
    as [(e & Hlast & Hthrown) | [(Henv & _) | Hstuck]].
  - vm_compute in Hlast. inversion Hlast; subst. discriminate Hthrown.
  - discriminate Henv.
  - destruct Hstuck as (d & Hin & Hd & _). exists d. split; assumption.
Defined.

(** X7 on a first deployment. *)
Lemma deployStack_result_meaning_witness :
  let r := run (deployStack Sim.world (Sim.deploy Sim.small None None None))
             (Sim.cloud None [Sim.change]) in
  all_completed (trace_of r) = true /\
  existsb is_deleteChangeSet (trace_of r) = false /\
  existsb is_executeChangeSet (trace_of r) = true.
Proof.
  intros r.
  destruct (deployStack_result_meaning Sim.world
              (Sim.deploy Sim.small None None None)
              (Sim.cloud None [Sim.change])
              (DeployStackResult.mk false
                 (collect_outputs
                    (Sim.describe (Sim.cloud (Some "CREATE_COMPLETE") [])))
                 "arn:aws:cloudformation:stack/demo")
              eq_refl) as (Hall & Hdel & Hexe & _).
  repeat split; assumption.
Defined.

(** X8 on a deployment of an unchanged template. *)
Lemma change_set_is_settled_once_witness :
  let r := run (deployStack Sim.world (Sim.deploy Sim.small None None None))
             (Sim.cloud (Some "UPDATE_COMPLETE") []) in
  count_of is_deleteChangeSet (trace_of r)
  + count_of is_executeChangeSet (trace_of r) = 1.
Proof.
  intros r.
  destruct (change_set_is_settled_once Sim.world
              (Sim.deploy Sim.small None None None)
              (Sim.cloud (Some "UPDATE_COMPLETE") []))
    as (_ & _ & Hone & _).
  apply (Hone "demo" "CDK-id-0"
           (Some {| CloudFormation.Changes := Some [] |})).
  found.
Defined.

(** X9 on the execution of the change set of a first deployment. *)
Lemma change_set_is_named_after_the_execution_witness :
  let r := run (deployStack Sim.world (Sim.deploy Sim.small None None None))
             (Sim.cloud None [Sim.change]) in
  exists id, In (EvUuid id) (trace_of r) /\ "CDK-id-0" = "CDK-" +:+ id.
Proof.
  intros r.
  destruct (change_set_is_named_after_the_execution Sim.world
              (Sim.deploy Sim.small None None None)
              (Sim.cloud None [Sim.change])) as [_ Hname].
  destruct (Hname (EvExecuteChangeSet "demo" "CDK-id-0" (Return tt))
              "CDK-id-0" ltac:(found) eq_refl) as (id & Hin & Hcs & _).
  exists id. split; assumption.
Defined.

(** X10 on a first deployment. *)
Lemma request_capabilities_role_and_parameters_witness :
  CloudFormation.Capabilities
    (Sim.request CloudFormation.CREATE (Some Sim.small) None)
  = [CloudFormation.CAPABILITY_IAM; CloudFormation.CAPABILITY_NAMED_IAM].
Proof.
  destruct (request_capabilities_role_and_parameters Sim.world
              (Sim.deploy Sim.small None None None)
              (Sim.cloud None [Sim.change])
              (Sim.request CloudFormation.CREATE (Some Sim.small) None)
              (Return Sim.created) ltac:(found)) as [Hcap _].
  exact Hcap.
Defined.

(** X11 on a first deployment without a toolkit. *)
Lemma request_body_is_exclusive_witness :
  CloudFormation.TemplateURL
    (Sim.request CloudFormation.CREATE (Some Sim.small) None) = None.
Proof.
  destruct (request_body_is_exclusive Sim.world
              (Sim.deploy Sim.small None None None)
              (Sim.cloud None [Sim.change])
              (Sim.request CloudFormation.CREATE (Some Sim.small) None)
              (Return Sim.created) ltac:(found))
    as [(_ & _ & Hurl) | (Htk & _)].
  - exact Hurl.
  - destruct Htk as [tk Htk]. discriminate Htk.
Defined.

(** X12 on a deployment and a destruction under the name [prod]. *)
Lemma explicit_deployName_is_used_witness :
  Forall (fun e => forall n, event_stack_name e = Some n -> n = "prod")
    (trace_of (run (deployStack Sim.world
                      (Sim.deploy Sim.small None (Some "prod") None))
                 (Sim.cloud None [Sim.change]))) /\
  Forall (fun e => forall n, event_stack_name e = Some n -> n = "prod")
    (trace_of (run (destroyStack Sim.world
                      (Sim.destroy (Some "prod") None))
                 (Sim.cloud (Some "CREATE_COMPLETE") []))).
Proof.
  destruct (explicit_deployName_is_used Sim.world "prod"
              ltac:(discriminate)) as [Hdeploy Hdestroy].
  split.
  - apply (Hdeploy (Sim.deploy Sim.small None (Some "prod") None)).
    reflexivity.
  - apply (Hdestroy (Sim.destroy (Some "prod") None)). reflexivity.
Defined.

(** X13 on a first deployment without a toolkit. *)
Lemma template_upload_needs_a_toolkit_witness :
  never is_upload
    (trace_of (run (deployStack Sim.world
                      (Sim.deploy Sim.small None None None))
                 (Sim.cloud None [Sim.change]))) = true.
Proof.
  destruct (template_upload_needs_a_toolkit Sim.world
              (Sim.deploy Sim.small None None None)
              (Sim.cloud None [Sim.change])) as (_ & Hnone & _).
  exact (Hnone eq_refl).
Defined.

(** X14 on the deletion that clears a stack left in CREATE_FAILED. *)
Lemma deleteStack_role_witness :
  let r := run (deployStack Sim.world (Sim.deploy Sim.small None None None))
             (Sim.cloud (Some "CREATE_FAILED") [Sim.change]) in
  In (EvDeleteStack "demo" None (Return tt)) (trace_of r) /\
  count_of is_deleteStack (trace_of r) <= 1.
Proof.
  intros r.
  destruct (proj1 (deleteStack_role Sim.world)
              (Sim.deploy Sim.small None None None)
              (Sim.cloud (Some "CREATE_FAILED") [Sim.change]))
    as [Hcount Hrole].
  assert (Hin : In (EvDeleteStack "demo" None (Return tt)) (trace_of r))
    by found.
  pose proof (Hrole _ None Hin eq_refl) as _.
  split; assumption.
Defined.

(** X15 on a first deployment with one change. *)
Lemma monitor_is_told_the_change_count_witness :
  let r := run (deployStack Sim.world (Sim.deploy Sim.small None None None))
             (Sim.cloud None [Sim.change]) in
  exists cs d,
    In (EvWaitForChangeSet "demo" cs (Return d)) (trace_of r) /\
    Some 1 = Some (changes_length d).
Proof.
  intros r.
  destruct (proj1 (monitor_is_told_the_change_count Sim.world)
              (Sim.deploy Sim.small None None None)
              (Sim.cloud None [Sim.change]) "demo" (Some tt) (Some 1)
              ltac:(found)) as (_ & _ & cs & d & Hin & Htotal & _).
  exists cs, d. split; assumption.
Defined.

(** X16 on the destruction of an existing stack. *)
Lemma destroyStack_monitor_brackets_the_deletion_witness :
  let r := run (destroyStack Sim.world (Sim.destroy None None))
             (Sim.cloud (Some "CREATE_COMPLETE") []) in
  exists c rest,
    after is_stackExists (trace_of r)
    = EvMonitorStart "demo" None None :: EvDeleteStack "demo" None c :: rest.
Proof.
  intros r.
  destruct (destroyStack_monitor_brackets_the_deletion Sim.world
              (Sim.destroy None None)
              (Sim.cloud (Some "CREATE_COMPLETE") []) "demo" eq_refl
              ltac:(found)) as (c & rest & Hafter & _).
  exists c, rest. exact Hafter.
Defined.

(** X17 on a template of 51201 characters. *)
Lemma logged_size_is_rounded_witness :
  (50 <= round_div_1024
           (Z.of_nat (js_length (Sim.blank (Z.to_nat 51201)))))%Z.
Proof.
  destruct (logged_size_is_rounded (Sim.blank (Z.to_nat 51201))) as [_ H].
  apply H. vm_compute. reflexivity.
Defined.

(** X18 on a template of 51201 characters, and on a small one. *)
Lemma large_template_without_toolkit_witness :
  (let r := run (deployStack Sim.world
                   (Sim.deploy (Sim.blank (Z.to_nat 51201)) None None None))
              (Sim.cloud None [Sim.change]) in
   outcome r = Throw (mkError too_large_message) /\
   forall e, In e (trace_of r) -> is_control_plane_call e = false) /\
  (let r := run (deployStack Sim.world
                   (Sim.deploy Sim.small None None None))
              (Sim.cloud None [Sim.change]) in
   existsb is_control_plane_call (trace_of r) = true /\
   CloudFormation.TemplateBody
     (Sim.request CloudFormation.CREATE (Some Sim.small) None)
   = Some Sim.small).
Proof.
  split; intros r.
  - destruct (large_template_without_toolkit Sim.world
                (Sim.deploy (Sim.blank (Z.to_nat 51201)) None None None)
                (Sim.cloud None [Sim.change]) (Sim.blank (Z.to_nat 51201))
                eq_refl eq_refl) as [Hbig _].
    assert (Hlen : (50 * 1024
                    < Z.of_nat (js_length (Sim.blank (Z.to_nat 51201))))%Z)
      by (vm_compute; reflexivity).
    destruct (Hbig Hlen) as (_ & Hnever & Hmsg).
    assert (Hall : all_completed (trace_of r) = true)
      by (vm_compute; reflexivity).
    destruct (Hmsg Sim.env eq_refl Hall) as [Hout _].
    split; [exact Hout | exact Hnever].
  - destruct (large_template_without_toolkit Sim.world
                (Sim.deploy Sim.small None None None)
                (Sim.cloud None [Sim.change]) Sim.small eq_refl eq_refl)
      as [_ Hsmall].
    assert (Hlen : (Z.of_nat (js_length Sim.small) <= 50 * 1024)%Z)
      by (vm_compute; discriminate).
    assert (Hin : In (EvCreateChangeSet
                        (Sim.request CloudFormation.CREATE
                           (Some Sim.small) None)
                        (Return Sim.created)) (trace_of r)) by found.
    destruct (Hsmall Hlen) as (_ & Hinline & Hreach).
    split.
    + apply Hreach; [exists Sim.env; reflexivity | vm_compute; reflexivity].
    + destruct (Hinline _ _ Hin) as [Hbody _]. exact Hbody.
Defined.
